(** * The KNOCK command of ircd-hybrid (modules/m_knock.c)

    A shallow embedding of the handler [m_knock] and of the facts the
    specification states about it.

    The handler is C code over the daemon's heap: it receives pointers to
    [struct Client] and obtains a pointer to a [struct Channel] from the
    channel hash table, writes two time stamps through these pointers and
    calls the daemon's send functions.  The embedding keeps this shape:
    - pointers are addresses ([N]) into two heaps ([gmap]), one of clients
      and one of channels; a read or write through an address that holds
      no object is a [Fault];
    - the send functions of send.h are recorded as events, in call order;
    - the handler runs in a state-and-fault monad [M];
    - what the headers of the daemon declare and m_knock.c only uses
      (numerics, mode bits, capability flags, the macros and functions on
      clients and channels) is the interface [Ircd]. *)

From Stdlib Require Import ZArith NArith List String.
From stdpp Require Import base option gmap strings list.

Local Open Scope Z_scope.
Local Open Scope string_scope.

(** ** Data: the structures of channel.h and client.h that m_knock.c reads *)

Abbreviation client_ptr := N (only parsing).
Abbreviation chan_ptr := N (only parsing).

(** [struct Mode]: [unsigned int mode] (a bit field), [unsigned int limit],
    [char key[]] (a NUL-terminated string, empty when no key is set). *)
Module Mode.
Record t := mk { mode : Z; limit : N; key : string }.
End Mode.

(** [struct Membership]: one node of a channel's member list. *)
Module Membership.
Record t := mk { client_p : client_ptr; flags : Z }.
End Membership.

(** [struct Channel]; [members] is the [dlink_list] whose length
    [dlink_list_length] returns, [last_knock] a [time_t]. *)
Module Channel.
Record t := mk {
  chname : string;
  mode : Mode.t;
  members : list Membership.t;
  last_knock : Z
}.

Definition set_last_knock (v : Z) (c : t) : t :=
  mk (chname c) (mode c) (members c) v.
End Channel.

(** [struct LocalClient]: the part of a client that exists only for a
    connection of this server. *)
Module LocalClient.
Record t := mk { last_knock : Z }.

Definition set_last_knock (v : Z) (_ : t) : t := mk v.
End LocalClient.

(** [struct Client]; [localClient] is a pointer that is NULL ([None]) for a
    client behind another server. *)
Module Client.
Record t := mk {
  name : string;
  username : string;
  host : string;
  id : string;
  status : Z;
  localClient : option LocalClient.t
}.

Definition set_localClient (l : option LocalClient.t) (c : t) : t :=
  mk (name c) (username c) (host c) (id c) (status c) l.
End Client.

(** [struct config_channel_entry], the fields m_knock.c reads. *)
Record config_channel_entry := mkConfigChannel {
  knock_delay : Z;
  knock_delay_channel : Z
}.

(** The daemon's state as far as the handler can see it: both heaps and the
    globals [CurrentTime], [ConfigChannel] and [me]. *)
Record State := mkState {
  clients : gmap N Client.t;
  channels : gmap N Channel.t;
  CurrentTime : Z;
  ConfigChannel : config_channel_entry;
  me : Client.t
}.

Definition set_clients (m : gmap N Client.t) (s : State) : State :=
  mkState m (channels s) (CurrentTime s) (ConfigChannel s) (me s).

Definition set_channels (m : gmap N Channel.t) (s : State) : State :=
  mkState (clients s) m (CurrentTime s) (ConfigChannel s) (me s).

(** ** Effects: the calls into send.h *)

Inductive Event :=
  (** [sendto_one_numeric(to, &me, numeric, args...)] *)
  | Numeric (to : client_ptr) (numeric : Z) (args : list string)
  (** [sendto_channel_local(type, nodeaf, chptr, text)] *)
  | ChannelLocal (type : Z) (nodeaf : Z) (chptr : chan_ptr) (text : string)
  (** [sendto_server(one, caps, nocaps, text)] *)
  | Server (one : client_ptr) (caps nocaps : Z) (text : string).

(** ** The monad of the handler *)

Inductive result (A : Type) :=
  | Fault
  | Ok (a : A) (s : State) (out : list Event).
Arguments Fault {A}.
Arguments Ok {A} a s out.

Definition M (A : Type) : Type := State -> result A.

#[global] Instance M_ret : MRet M := fun A a s => Ok a s [].

#[global] Instance M_bind : MBind M := fun A B f m s =>
  match m s with
  | Fault => Fault
  | Ok a s1 o1 =>
      match f a s1 with
      | Fault => Fault
      | Ok b s2 o2 => Ok b s2 (o1 ++ o2)
      end
  end.

Definition reads {A} (f : State -> A) : M A := fun s => Ok (f s) s [].
Definition emit (e : Event) : M unit := fun s => Ok tt s [e].

(** [return v;] *)
Definition return_ (v : Z) : M Z := mret v.

(** What a run sent; a run that faults sends nothing. *)
Definition events {A} (r : result A) : list Event :=
  match r with Fault => [] | Ok _ _ out => out end.

(** [*p] for a channel or client pointer. *)
Definition load_channel (p : chan_ptr) : M Channel.t := fun s =>
  match channels s !! p with
  | Some c => Ok c s []
  | None => Fault
  end.

Definition load_client (p : client_ptr) : M Client.t := fun s =>
  match clients s !! p with
  | Some c => Ok c s []
  | None => Fault
  end.

(** [chptr->last_knock = v] *)
Definition store_channel_last_knock (p : chan_ptr) (v : Z) : M unit := fun s =>
  match channels s !! p with
  | Some c =>
      Ok tt
        (set_channels (<[p := Channel.set_last_knock v c]> (channels s)) s) []
  | None => Fault
  end.

(** [p->localClient->last_knock], read and written. *)
Definition load_localClient_last_knock (p : client_ptr) : M Z := fun s =>
  match clients s !! p with
  | Some c =>
      match Client.localClient c with
      | Some l => Ok (LocalClient.last_knock l) s []
      | None => Fault
      end
  | None => Fault
  end.

Definition store_localClient_last_knock (p : client_ptr) (v : Z) : M unit :=
  fun s =>
  match clients s !! p with
  | Some c =>
      match Client.localClient c with
      | Some l =>
          let c' := Client.set_localClient
                      (Some (LocalClient.set_last_knock v l)) c in
          Ok tt (set_clients (<[p := c']> (clients s)) s) []
      | None => Fault
      end
  | None => Fault
  end.

Definition sendto_one_numeric (to : client_ptr) (numeric : Z)
    (args : list string) : M unit :=
  emit (Numeric to numeric args).

Definition sendto_channel_local (type nodeaf : Z) (chptr : chan_ptr)
    (text : string) : M unit :=
  emit (ChannelLocal type nodeaf chptr text).

Definition sendto_server (one : client_ptr) (caps nocaps : Z)
    (text : string) : M unit :=
  emit (Server one caps nocaps text).

(** ** What the daemon's headers provide *)

(** The constants, macros and functions of numeric.h, channel_mode.h,
    channel.h, client.h, s_serv.h and hash.h that m_knock.c uses and does
    not define.  The functions only read the state. *)
Class Ircd := {
  (* numeric.h *)
  ERR_NEEDMOREPARAMS : Z;
  ERR_NOSUCHCHANNEL : Z;
  ERR_KNOCKONCHAN : Z;
  ERR_CHANOPEN : Z;
  ERR_CANNOTSENDTOCHAN : Z;
  ERR_TOOMANYKNOCK : Z;
  RPL_KNOCKDLVR : Z;
  (* channel_mode.h *)
  MODE_INVITEONLY : Z;
  PrivateChannel : Channel.t -> bool;
  (* channel.h *)
  CHFL_CHANOP : Z;
  IsMember : State -> client_ptr -> chan_ptr -> bool;
  is_banned : State -> chan_ptr -> client_ptr -> bool;
  (* client.h *)
  MyClient : Client.t -> bool;
  ID : Client.t -> string;
  (* s_serv.h *)
  CAP_KNOCK : Z;
  NOCAPS : Z;
  (* hash.h *)
  hash_find_channel : State -> string -> option chan_ptr
}.

(** A [char *]: NULL is [None].  [parv] holds the [parc] words of the
    command and is followed by a NULL pointer, so [parv[i]] is [parv !! i]. *)
Definition c_str (p : option string) : string := default "" p.

Module irc_string.
(** Modelled from the spec: the macro [EmptyString] of irc_string.h, which
    is not among the sources.  The first precondition of the handler is
    that the parameter is present; a parameter is absent when the pointer
    is NULL or points at the terminating NUL. *)
Definition EmptyString (x : option string) : bool :=
  match x with
  | None => true
  | Some s => match s with "" => true | String _ _ => false end
  end.
End irc_string.

(** [*s] as a truth value: the first character is not NUL. *)
Definition first_char (s : string) : bool :=
  match s with "" => false | String _ _ => true end.

(** ** The handler *)

Section Handler.
Context {ircd : Ircd}.

(** The two format strings of m_knock.c:129 and m_knock.c:135 with their
    arguments filled in. *)
Definition knock_notice (me_ src : Client.t) (ch : Channel.t) : string :=
  ":" +:+ Client.name me_ +:+ " NOTICE @" +:+ Channel.chname ch +:+
  " :KNOCK: " +:+ Channel.chname ch +:+ " (" +:+ Client.name src +:+
  " [" +:+ Client.username src +:+ "@" +:+ Client.host src +:+
  "] has asked for an invite)".

Definition knock_relay (src : Client.t) (ch : Channel.t) : string :=
  ":" +:+ ID src +:+ " KNOCK " +:+ Channel.chname ch.

(** m_knock.c:126-137, the part both local and relayed knocks reach.
    [src] and [ch] are the objects at [source_p] and [chptr]. *)
Definition knock_deliver (client_p source_p : client_ptr) (src : Client.t)
    (chptr : chan_ptr) (ch : Channel.t) : M Z :=
  now ← reads CurrentTime;
  store_channel_last_knock chptr now;;
  me_ ← reads me;
  sendto_channel_local CHFL_CHANOP 0 chptr (knock_notice me_ src ch);;
  sendto_server client_p CAP_KNOCK NOCAPS (knock_relay src ch);;
  return_ 0.

(** m_knock.c:58-138.  Every [return 0] inside an [if] is the end of
    that branch; the code after the [if] is the [else] branch.  [ch] and
    [src] are read once, where the C code first follows [chptr] and
    [source_p]; nothing is written through either pointer before the last
    use of the fields read from them.  The sums of a [time_t] stamp and an
    [int] delay are taken in [Z]: signed overflow has no defined result in
    C. *)
Definition m_knock (client_p source_p : client_ptr) (parc : Z)
    (parv : list string) : M Z :=
  let parv_1 := parv !! 1%nat in
  if irc_string.EmptyString parv_1 then
    sendto_one_numeric source_p ERR_NEEDMOREPARAMS ["KNOCK"];;
    return_ 0
  else
    found ← reads (fun s => hash_find_channel s (c_str parv_1));
    match found with
    | None =>
        sendto_one_numeric source_p ERR_NOSUCHCHANNEL [c_str parv_1];;
        return_ 0
    | Some chptr =>
        member ← reads (fun s => IsMember s source_p chptr);
        ch ← load_channel chptr;
        if (member : bool) then
          sendto_one_numeric source_p ERR_KNOCKONCHAN [Channel.chname ch];;
          return_ 0
        else if negb
            (negb (Z.land (Mode.mode (Channel.mode ch)) MODE_INVITEONLY =? 0)%Z
             || first_char (Mode.key (Channel.mode ch))
             || (negb (Mode.limit (Channel.mode ch) =? 0)%N
                 && (Mode.limit (Channel.mode ch)
                     <=? N.of_nat (length (Channel.members ch)))%N))
        then
          sendto_one_numeric source_p ERR_CHANOPEN [Channel.chname ch];;
          return_ 0
        else
          src ← load_client source_p;
          if MyClient src then
            banned ← reads (fun s => is_banned s chptr source_p);
            if PrivateChannel ch || banned then
              sendto_one_numeric source_p ERR_CANNOTSENDTOCHAN
                [Channel.chname ch];;
              return_ 0
            else
              user_knock ← load_localClient_last_knock source_p;
              conf ← reads ConfigChannel;
              now ← reads CurrentTime;
              if (user_knock + knock_delay conf >? now)%Z then
                sendto_one_numeric source_p ERR_TOOMANYKNOCK
                  [Channel.chname ch; "user"];;
                return_ 0
              else if (Channel.last_knock ch + knock_delay_channel conf
                       >? now)%Z
              then
                sendto_one_numeric source_p ERR_TOOMANYKNOCK
                  [Channel.chname ch; "channel"];;
                return_ 0
              else
                store_localClient_last_knock source_p now;;
                sendto_one_numeric source_p RPL_KNOCKDLVR
                  [Channel.chname ch];;
                knock_deliver client_p source_p src chptr ch
          else
            knock_deliver client_p source_p src chptr ch
    end.
End Handler.

(** ** The vocabulary of the specification *)

Section Vocabulary.
Context {ircd : Ircd}.

(** A channel is closed: invite-only, keyed, or at its limit. *)
Definition channel_closed (ch : Channel.t) : Prop :=
  Z.land (Mode.mode (Channel.mode ch)) MODE_INVITEONLY ≠ 0
  ∨ Mode.key (Channel.mode ch) ≠ ""
  ∨ (Mode.limit (Channel.mode ch) ≠ 0%N
     ∧ (Mode.limit (Channel.mode ch)
        ≤ N.of_nat (length (Channel.members ch)))%N).

(** The first of the four preconditions that fails, with the numeric and
    the arguments of the reply it causes. *)
Inductive first_failure (s : State) (source_p : client_ptr)
    (parv : list string) : Z -> list string -> Prop :=
  | no_parameter :
      irc_string.EmptyString (parv !! 1%nat) = true ->
      first_failure s source_p parv ERR_NEEDMOREPARAMS ["KNOCK"]
  | no_channel name :
      parv !! 1%nat = Some name -> name ≠ "" ->
      hash_find_channel s name = None ->
      first_failure s source_p parv ERR_NOSUCHCHANNEL [name]
  | on_channel name chptr ch :
      parv !! 1%nat = Some name -> name ≠ "" ->
      hash_find_channel s name = Some chptr ->
      channels s !! chptr = Some ch ->
      IsMember s source_p chptr = true ->
      first_failure s source_p parv ERR_KNOCKONCHAN [Channel.chname ch]
  | channel_open name chptr ch :
      parv !! 1%nat = Some name -> name ≠ "" ->
      hash_find_channel s name = Some chptr ->
      channels s !! chptr = Some ch ->
      IsMember s source_p chptr = false ->
      ¬ channel_closed ch ->
      first_failure s source_p parv ERR_CHANOPEN [Channel.chname ch].

(** All four preconditions hold: [parv[1]] names the channel at [chptr],
    which is [ch], the sender is not on it, and it is closed. *)
Definition preconditions (s : State) (source_p : client_ptr)
    (parv : list string) (chptr : chan_ptr) (ch : Channel.t) : Prop :=
  ∃ name,
    parv !! 1%nat = Some name ∧ name ≠ ""
    ∧ hash_find_channel s name = Some chptr
    ∧ channels s !! chptr = Some ch
    ∧ IsMember s source_p chptr = false
    ∧ channel_closed ch.

(** The two flood limits of m_knock.c:109 and m_knock.c:116: the stamp plus
    the configured delay is still ahead of the clock. *)
Definition user_limited (s : State) (lc : LocalClient.t) : Prop :=
  LocalClient.last_knock lc + knock_delay (ConfigChannel s) > CurrentTime s.

Definition channel_limited (s : State) (ch : Channel.t) : Prop :=
  Channel.last_knock ch + knock_delay_channel (ConfigChannel s)
  > CurrentTime s.

(** A knock that passes every check: of a sender that is not a client of
    this server, or of a local client that may knock and is within both
    limits. *)
Inductive accepted (s : State) (source_p : client_ptr) (parv : list string)
    (chptr : chan_ptr) (ch : Channel.t) (src : Client.t) : Prop :=
  | accepted_relayed :
      preconditions s source_p parv chptr ch ->
      clients s !! source_p = Some src ->
      MyClient src = false ->
      accepted s source_p parv chptr ch src
  | accepted_local lc :
      preconditions s source_p parv chptr ch ->
      clients s !! source_p = Some src ->
      MyClient src = true ->
      PrivateChannel ch = false ->
      is_banned s chptr source_p = false ->
      Client.localClient src = Some lc ->
      ¬ user_limited s lc ->
      ¬ channel_limited s ch ->
      accepted s source_p parv chptr ch src.

(** The state after [chptr->last_knock = CurrentTime] and after
    [source_p->localClient->last_knock = CurrentTime]. *)
Definition channel_knocked (chptr : chan_ptr) (ch : Channel.t) (s : State)
    : State :=
  set_channels
    (<[chptr := Channel.set_last_knock (CurrentTime s) ch]> (channels s)) s.

Definition client_knocked (source_p : client_ptr) (src : Client.t)
    (lc : LocalClient.t) (s : State) : State :=
  set_clients
    (<[source_p := Client.set_localClient
         (Some (LocalClient.set_last_knock (CurrentTime s) lc)) src]>
       (clients s)) s.

(** The numerics of the failure branches, and all numerics of the handler. *)
Definition knock_errors : list Z :=
  [ERR_NEEDMOREPARAMS; ERR_NOSUCHCHANNEL; ERR_KNOCKONCHAN; ERR_CHANOPEN;
   ERR_CANNOTSENDTOCHAN; ERR_TOOMANYKNOCK].

Definition knock_numerics : list Z := knock_errors ++ [RPL_KNOCKDLVR].


(** A reply of the handler: a numeric of its list, sent to the sender. *)
Definition expected_reply (source_p : client_ptr) (e : Event) : Prop :=
  match e with
  | Numeric to n _ => to = source_p ∧ In n knock_numerics
  | _ => True
  end.

(** Everything a run can end in. *)
Inductive outcome (s : State) (client_p source_p : client_ptr)
    : result Z -> Prop :=
  | faulted : outcome s client_p source_p Fault
  | refused n args :
      In n knock_errors ->
      outcome s client_p source_p (Ok 0 s [Numeric source_p n args])
  | knocked_local chptr ch src lc :
      outcome s client_p source_p
        (Ok 0 (channel_knocked chptr ch (client_knocked source_p src lc s))
           [Numeric source_p RPL_KNOCKDLVR [Channel.chname ch];
            ChannelLocal CHFL_CHANOP 0 chptr (knock_notice (me s) src ch);
            Server client_p CAP_KNOCK NOCAPS (knock_relay src ch)])
  | knocked_relayed chptr ch src :
      outcome s client_p source_p
        (Ok 0 (channel_knocked chptr ch s)
           [ChannelLocal CHFL_CHANOP 0 chptr (knock_notice (me s) src ch);
            Server client_p CAP_KNOCK NOCAPS (knock_relay src ch)]).

(** The pointers the handler follows hold objects: the sender, whatever the
    hash table returns, and the connection of a local client. *)
Definition pointers_valid (s : State) (source_p : client_ptr) : Prop :=
  is_Some (clients s !! source_p)
  ∧ (∀ name p, hash_find_channel s name = Some p ->
               is_Some (channels s !! p))
  ∧ (∀ src, clients s !! source_p = Some src -> MyClient src = true ->
            is_Some (Client.localClient src)).

(** The same daemon with another channel hash table. *)
Definition with_hash_find_channel
    (lookup : State -> string -> option chan_ptr) : Ircd :=
  {| ERR_NEEDMOREPARAMS := ERR_NEEDMOREPARAMS;
     ERR_NOSUCHCHANNEL := ERR_NOSUCHCHANNEL;
     ERR_KNOCKONCHAN := ERR_KNOCKONCHAN;
     ERR_CHANOPEN := ERR_CHANOPEN;
     ERR_CANNOTSENDTOCHAN := ERR_CANNOTSENDTOCHAN;
     ERR_TOOMANYKNOCK := ERR_TOOMANYKNOCK;
     RPL_KNOCKDLVR := RPL_KNOCKDLVR;
     MODE_INVITEONLY := MODE_INVITEONLY;
     PrivateChannel := PrivateChannel;
     CHFL_CHANOP := CHFL_CHANOP;
     IsMember := IsMember;
     is_banned := is_banned;
     MyClient := MyClient;
     ID := ID;
     CAP_KNOCK := CAP_KNOCK;
     NOCAPS := NOCAPS;
     hash_find_channel := lookup |}.
End Vocabulary.

(** ** A small network to run the handler on *)

Module Example.

(** One instance of the interface, with the values ircd-hybrid gives the
    constants and the usual reading of the macros. *)
Definition hybrid : Ircd :=
  {| ERR_NEEDMOREPARAMS := 461;
     ERR_NOSUCHCHANNEL := 403;
     ERR_KNOCKONCHAN := 714;
     ERR_CHANOPEN := 713;
     ERR_CANNOTSENDTOCHAN := 404;
     ERR_TOOMANYKNOCK := 712;
     RPL_KNOCKDLVR := 711;
     MODE_INVITEONLY := 16;
     PrivateChannel := fun ch =>
       negb (Z.land (Mode.mode (Channel.mode ch)) 1 =? 0)%Z;
     CHFL_CHANOP := 1;
     IsMember := fun s c p =>
       match channels s !! p with
       | Some ch =>
           existsb (fun m => (Membership.client_p m =? c)%N)
             (Channel.members ch)
       | None => false
       end;
     is_banned := fun _ _ c => (c =? 5)%N;
     MyClient := fun c =>
       match Client.localClient c with
       | Some _ => (Client.status c =? 32)%Z
       | None => false
       end;
     ID := fun c =>
       if first_char (Client.id c) then Client.id c else Client.name c;
     CAP_KNOCK := 4096;
     NOCAPS := 0;
     hash_find_channel := fun s name =>
       match List.filter (fun kv => String.eqb (Channel.chname (snd kv)) name)
               (map_to_list (channels s)) with
       | kv :: _ => Some (fst kv)
       | [] => None
       end |}.

Definition server : Client.t :=
  Client.mk "irc.example.net" "" "irc.example.net" "0AA" 0 None.

(** alice, dave and eve are clients of this server, bob is behind another
    one, carol is on #secret. *)
Definition alice : Client.t :=
  Client.mk "alice" "al" "a.example.org" "0AAAAAAAA" 32
    (Some (LocalClient.mk 0)).
Definition bob : Client.t :=
  Client.mk "bob" "bo" "b.example.org" "1BBAAAAAB" 32 None.
Definition carol : Client.t :=
  Client.mk "carol" "ca" "c.example.org" "0AAAAAAAC" 32
    (Some (LocalClient.mk 0)).
Definition dave : Client.t :=
  Client.mk "dave" "da" "d.example.org" "0AAAAAAAD" 32
    (Some (LocalClient.mk 900)).
Definition eve : Client.t :=
  Client.mk "eve" "ev" "e.example.org" "0AAAAAAAE" 32
    (Some (LocalClient.mk 0)).

(** #secret is invite-only, #open has no mode, #busy is invite-only and was
    knocked on ten seconds ago, #hidden is invite-only and private, #key
    has a key, #full has reached its limit of one. *)
Definition secret : Channel.t :=
  Channel.mk "#secret" (Mode.mk 16 0 "") [Membership.mk 3 1] 0.
Definition open : Channel.t :=
  Channel.mk "#open" (Mode.mk 0 0 "") [Membership.mk 3 1] 0.
Definition busy : Channel.t :=
  Channel.mk "#busy" (Mode.mk 16 0 "") [Membership.mk 3 1] 990.
Definition hidden : Channel.t :=
  Channel.mk "#hidden" (Mode.mk 17 0 "") [Membership.mk 3 1] 0.
Definition keyed : Channel.t :=
  Channel.mk "#key" (Mode.mk 0 0 "sesame") [Membership.mk 3 1] 0.
Definition full : Channel.t :=
  Channel.mk "#full" (Mode.mk 0 1 "") [Membership.mk 3 1] 0.

Definition world : State :=
  mkState
    (<[1%N := alice]> (<[2%N := bob]> (<[3%N := carol]>
       (<[4%N := dave]> (<[5%N := eve]> ∅)))))
    (<[10%N := secret]> (<[11%N := open]> (<[12%N := busy]>
       (<[13%N := hidden]> (<[14%N := keyed]> (<[15%N := full]> ∅))))))
    1000
    (mkConfigChannel 300 60)
    server.

(** The handler on this network, for a sender that is its own link. *)
Definition run (source_p : client_ptr) (parv : list string) : result Z :=
  m_knock (ircd := hybrid) source_p source_p 2 parv world.

End Example.

(** ** Runs in full, and runs one after another: vocabulary *)

(** The state with the daemon's clock at [t]. *)
Definition set_CurrentTime (t : Z) (s : State) : State :=
  mkState (clients s) (channels s) t (ConfigChannel s) (me s).

(** No last-knock stamp lies ahead of the clock. *)
Definition well_stamped (s : State) : Prop :=
  (∀ (p : client_ptr) c l,
     clients s !! p = Some c -> Client.localClient c = Some l ->
     (LocalClient.last_knock l ≤ CurrentTime s)%Z)
  ∧ (∀ (q : chan_ptr) ch,
       channels s !! q = Some ch ->
       (Channel.last_knock ch ≤ CurrentTime s)%Z).

Section Traces.
Context {ircd : Ircd}.

(** The failure branches past the lookup (m_knock.c:77-120): the numeric
    and what follows the channel name in the reply. *)
Definition channel_refusals : list (Z * list string) :=
  [(ERR_KNOCKONCHAN, []); (ERR_CHANOPEN, []); (ERR_CANNOTSENDTOCHAN, []);
   (ERR_TOOMANYKNOCK, ["user"]); (ERR_TOOMANYKNOCK, ["channel"])].

(** Everything a run can end in, with the objects it went through: [q] is
    what the hash table gave for [parv[1]], [ch] the channel there, [src]
    the client at [source_p], [lc] its connection. *)
Inductive knock_run (s : State) (client_p source_p : client_ptr)
    (parv : list string) : result Z -> Prop :=
  | run_faulted : knock_run s client_p source_p parv Fault
  | run_no_parameter :
      irc_string.EmptyString (parv !! 1%nat) = true ->
      knock_run s client_p source_p parv
        (Ok 0 s [Numeric source_p ERR_NEEDMOREPARAMS ["KNOCK"]])
  | run_no_channel :
      irc_string.EmptyString (parv !! 1%nat) = false ->
      hash_find_channel s (c_str (parv !! 1%nat)) = None ->
      knock_run s client_p source_p parv
        (Ok 0 s [Numeric source_p ERR_NOSUCHCHANNEL [c_str (parv !! 1%nat)]])
  | run_refused q ch n tail :
      hash_find_channel s (c_str (parv !! 1%nat)) = Some q ->
      channels s !! q = Some ch ->
      In (n, tail) channel_refusals ->
      knock_run s client_p source_p parv
        (Ok 0 s [Numeric source_p n (Channel.chname ch :: tail)])
  | run_local q ch src lc :
      hash_find_channel s (c_str (parv !! 1%nat)) = Some q ->
      channels s !! q = Some ch ->
      clients s !! source_p = Some src ->
      MyClient src = true ->
      Client.localClient src = Some lc ->
      knock_run s client_p source_p parv
        (Ok 0 (channel_knocked q ch (client_knocked source_p src lc s))
           [Numeric source_p RPL_KNOCKDLVR [Channel.chname ch];
            ChannelLocal CHFL_CHANOP 0 q (knock_notice (me s) src ch);
            Server client_p CAP_KNOCK NOCAPS (knock_relay src ch)])
  | run_relayed q ch src :
      hash_find_channel s (c_str (parv !! 1%nat)) = Some q ->
      channels s !! q = Some ch ->
      clients s !! source_p = Some src ->
      MyClient src = false ->
      knock_run s client_p source_p parv
        (Ok 0 (channel_knocked q ch s)
           [ChannelLocal CHFL_CHANOP 0 q (knock_notice (me s) src ch);
            Server client_p CAP_KNOCK NOCAPS (knock_relay src ch)]).

(** What a message of a run is about: the sender, the channel the hash
    table gave for [parv[1]] under the name the daemon stores for it, and
    the link the command came in on. *)
Definition about_request (s : State) (client_p source_p : client_ptr)
    (parv : list string) (e : Event) : Prop :=
  match e with
  | Numeric to _ args =>
      to = source_p
      ∧ (args = ["KNOCK"]
         ∨ (hash_find_channel s (c_str (parv !! 1%nat)) = None
            ∧ args = [c_str (parv !! 1%nat)])
         ∨ ∃ q ch tail,
             hash_find_channel s (c_str (parv !! 1%nat)) = Some q
             ∧ channels s !! q = Some ch
             ∧ args = Channel.chname ch :: tail)
  | ChannelLocal type nodeaf q text =>
      type = CHFL_CHANOP ∧ nodeaf = 0
      ∧ ∃ ch src,
          hash_find_channel s (c_str (parv !! 1%nat)) = Some q
          ∧ channels s !! q = Some ch
          ∧ clients s !! source_p = Some src
          ∧ text = knock_notice (me s) src ch
  | Server one caps nocaps text =>
      one = client_p ∧ caps = CAP_KNOCK ∧ nocaps = NOCAPS
      ∧ ∃ q ch src,
          hash_find_channel s (c_str (parv !! 1%nat)) = Some q
          ∧ channels s !! q = Some ch
          ∧ clients s !! source_p = Some src
          ∧ text = knock_relay src ch
  end.
End Traces.

(** The example network after alice's knock on #secret, and after bob's. *)
Module Later.
Definition after_alice : State :=
  channel_knocked 10 Example.secret
    (client_knocked 1 Example.alice (LocalClient.mk 0) Example.world).

Definition after_bob : State :=
  channel_knocked 10 Example.secret Example.world.
End Later.
(** ** How a run of the handler unfolds *)

Section Runs.
Context {ircd : Ircd}.

Lemma bind_reads {A B} (f : State -> A) (k : A -> M B) s :
  (reads f ≫= k) s = k (f s) s.
Proof. unfold mbind, M_bind, reads. destruct (k (f s) s); reflexivity. Qed.

Lemma bind_emit {B} e (k : unit -> M B) s :
  (emit e ≫= k) s =
  match k tt s with Fault => Fault | Ok b s' out => Ok b s' (e :: out) end.
Proof. reflexivity. Qed.

Lemma bind_load_channel {B} p (k : Channel.t -> M B) s c :
  channels s !! p = Some c -> (load_channel p ≫= k) s = k c s.
Proof.
  intros E. unfold mbind, M_bind, load_channel. rewrite E.
  destruct (k c s); reflexivity.
Qed.

Lemma bind_load_channel_fault {B} p (k : Channel.t -> M B) s :
  channels s !! p = None -> (load_channel p ≫= k) s = Fault.
Proof.
  intros E. unfold mbind, M_bind, load_channel. rewrite E. reflexivity.
Qed.

Lemma bind_load_client {B} p (k : Client.t -> M B) s c :
  clients s !! p = Some c -> (load_client p ≫= k) s = k c s.
Proof.
  intros E. unfold mbind, M_bind, load_client. rewrite E.
  destruct (k c s); reflexivity.
Qed.

Lemma bind_load_client_fault {B} p (k : Client.t -> M B) s :
  clients s !! p = None -> (load_client p ≫= k) s = Fault.
Proof.
  intros E. unfold mbind, M_bind, load_client. rewrite E. reflexivity.
Qed.

Lemma bind_load_last_knock {B} p (k : Z -> M B) s c l :
  clients s !! p = Some c -> Client.localClient c = Some l ->
  (load_localClient_last_knock p ≫= k) s = k (LocalClient.last_knock l) s.
Proof.
  intros E El. unfold mbind, M_bind, load_localClient_last_knock.
  rewrite E, El. destruct (k _ s); reflexivity.
Qed.

Lemma bind_load_last_knock_fault {B} p (k : Z -> M B) s c :
  clients s !! p = Some c -> Client.localClient c = None ->
  (load_localClient_last_knock p ≫= k) s = Fault.
Proof.
  intros E El. unfold mbind, M_bind, load_localClient_last_knock.
  rewrite E, El. reflexivity.
Qed.

Lemma bind_store_last_knock {B} p v (k : unit -> M B) s c l :
  clients s !! p = Some c -> Client.localClient c = Some l ->
  (store_localClient_last_knock p v ≫= k) s =
  k tt (set_clients
          (<[p := Client.set_localClient
                    (Some (LocalClient.set_last_knock v l)) c]> (clients s))
          s).
Proof.
  intros E El. unfold mbind, M_bind, store_localClient_last_knock.
  rewrite E, El. destruct (k tt _); reflexivity.
Qed.

(** The test of m_knock.c:83-85 is the specification's "closed". *)
Lemma closed_test_spec (ch : Channel.t) :
  negb (Z.land (Mode.mode (Channel.mode ch)) MODE_INVITEONLY =? 0)%Z
  || first_char (Mode.key (Channel.mode ch))
  || (negb (Mode.limit (Channel.mode ch) =? 0)%N
      && (Mode.limit (Channel.mode ch)
          <=? N.of_nat (length (Channel.members ch)))%N) = true
  ↔ channel_closed ch.
Proof.
  unfold channel_closed.
  rewrite !orb_true_iff, andb_true_iff, !negb_true_iff.
  rewrite Z.eqb_neq, N.eqb_neq, N.leb_le.
  assert (first_char (Mode.key (Channel.mode ch)) = true
          ↔ Mode.key (Channel.mode ch) ≠ "") as ->.
  { destruct (Mode.key (Channel.mode ch)); simpl; split; congruence. }
  tauto.
Qed.

Lemma knock_deliver_run client_p source_p src chptr ch ch' s :
  channels s !! chptr = Some ch' ->
  knock_deliver client_p source_p src chptr ch s =
  Ok 0 (channel_knocked chptr ch' s)
    [ChannelLocal CHFL_CHANOP 0 chptr (knock_notice (me s) src ch);
     Server client_p CAP_KNOCK NOCAPS (knock_relay src ch)].
Proof.
  intros E. unfold knock_deliver. rewrite bind_reads.
  unfold store_channel_last_knock, mbind at 1, M_bind at 1. rewrite E.
  rewrite bind_reads. unfold sendto_channel_local, sendto_server.
  rewrite !bind_emit. reflexivity.
Qed.

End Runs.

(** ** The scenarios of a run *)

Section Scenarios.
Context {ircd : Ircd}.

(** Runs a reply and the [return 0] that follows it. *)
Local Ltac reply :=
  unfold sendto_one_numeric; rewrite bind_emit; reflexivity.

(** Decides the test of m_knock.c:83-85 from what is known of [ch]. *)
Local Ltac closed_test ch :=
  let E := fresh "Etest" in
  pose proof (closed_test_spec ch) as E;
  match goal with
  | |- context [if negb ?t then _ else _] =>
      destruct t; cbn [negb]; [| exfalso; intuition congruence]
  end; clear E.

Local Ltac open_test ch :=
  let E := fresh "Etest" in
  pose proof (closed_test_spec ch) as E;
  match goal with
  | |- context [if negb ?t then _ else _] =>
      destruct t; cbn [negb]; [exfalso; intuition congruence |]
  end; clear E.

(** Runs the handler up to the end of the four preconditions. *)
Local Ltac enter name Hparv Hname Hfind Hch Hmem :=
  unfold m_knock; rewrite Hparv;
  destruct name as [|? ?]; [done |];
  unfold c_str, default; cbn [irc_string.EmptyString from_option id];
  rewrite bind_reads, Hfind, bind_reads, (bind_load_channel _ _ _ _ Hch),
    Hmem.

Lemma m_knock_no_parameter s client_p source_p parc parv :
  irc_string.EmptyString (parv !! 1%nat) = true ->
  m_knock client_p source_p parc parv s =
  Ok 0 s [Numeric source_p ERR_NEEDMOREPARAMS ["KNOCK"]].
Proof. intros E. unfold m_knock. rewrite E. reply. Qed.

Lemma m_knock_no_channel s client_p source_p parc parv name :
  parv !! 1%nat = Some name -> name ≠ "" ->
  hash_find_channel s name = None ->
  m_knock client_p source_p parc parv s =
  Ok 0 s [Numeric source_p ERR_NOSUCHCHANNEL [name]].
Proof.
  intros Hparv Hname Hfind. unfold m_knock. rewrite Hparv.
  destruct name as [|? ?]; [done |].
  unfold c_str, default; cbn [irc_string.EmptyString from_option id].
  rewrite bind_reads, Hfind. reply.
Qed.

Lemma m_knock_dangling s client_p source_p parc parv name chptr :
  parv !! 1%nat = Some name -> name ≠ "" ->
  hash_find_channel s name = Some chptr ->
  channels s !! chptr = None ->
  m_knock client_p source_p parc parv s = Fault.
Proof.
  intros Hparv Hname Hfind Hch. unfold m_knock. rewrite Hparv.
  destruct name as [|? ?]; [done |].
  unfold c_str, default; cbn [irc_string.EmptyString from_option id].
  rewrite bind_reads, Hfind, bind_reads.
  apply bind_load_channel_fault, Hch.
Qed.

Lemma m_knock_on_channel s client_p source_p parc parv name chptr ch :
  parv !! 1%nat = Some name -> name ≠ "" ->
  hash_find_channel s name = Some chptr ->
  channels s !! chptr = Some ch ->
  IsMember s source_p chptr = true ->
  m_knock client_p source_p parc parv s =
  Ok 0 s [Numeric source_p ERR_KNOCKONCHAN [Channel.chname ch]].
Proof.
  intros Hparv Hname Hfind Hch Hmem.
  enter name Hparv Hname Hfind Hch Hmem. reply.
Qed.

Lemma m_knock_channel_open s client_p source_p parc parv name chptr ch :
  parv !! 1%nat = Some name -> name ≠ "" ->
  hash_find_channel s name = Some chptr ->
  channels s !! chptr = Some ch ->
  IsMember s source_p chptr = false ->
  ¬ channel_closed ch ->
  m_knock client_p source_p parc parv s =
  Ok 0 s [Numeric source_p ERR_CHANOPEN [Channel.chname ch]].
Proof.
  intros Hparv Hname Hfind Hch Hmem Hopen.
  enter name Hparv Hname Hfind Hch Hmem. open_test ch. reply.
Qed.

(** From here on the four preconditions hold. *)
Local Ltac past_preconditions Hpre :=
  let name := fresh "name" in
  let Hparv := fresh "Hparv" in let Hname := fresh "Hname" in
  let Hfind := fresh "Hfind" in let Hch := fresh "Hch" in
  let Hmem := fresh "Hmem" in let Hclosed := fresh "Hclosed" in
  destruct Hpre as (name & Hparv & Hname & Hfind & Hch & Hmem & Hclosed);
  enter name Hparv Hname Hfind Hch Hmem;
  match goal with
  | |- context [load_channel _] => idtac
  | |- context [Channel.chname ?ch] => closed_test ch
  end.

Lemma m_knock_no_source s client_p source_p parc parv chptr ch :
  preconditions s source_p parv chptr ch ->
  clients s !! source_p = None ->
  m_knock client_p source_p parc parv s = Fault.
Proof.
  intros Hpre Hsrc. past_preconditions Hpre.
  apply bind_load_client_fault, Hsrc.
Qed.

Lemma m_knock_relayed s client_p source_p parc parv chptr ch src :
  preconditions s source_p parv chptr ch ->
  clients s !! source_p = Some src ->
  MyClient src = false ->
  m_knock client_p source_p parc parv s =
  Ok 0 (channel_knocked chptr ch s)
    [ChannelLocal CHFL_CHANOP 0 chptr (knock_notice (me s) src ch);
     Server client_p CAP_KNOCK NOCAPS (knock_relay src ch)].
Proof.
  intros Hpre Hsrc Hmy. past_preconditions Hpre.
  rewrite (bind_load_client _ _ _ _ Hsrc), Hmy.
  apply knock_deliver_run. assumption.
Qed.

Lemma m_knock_forbidden s client_p source_p parc parv chptr ch src :
  preconditions s source_p parv chptr ch ->
  clients s !! source_p = Some src ->
  MyClient src = true ->
  PrivateChannel ch || is_banned s chptr source_p = true ->
  m_knock client_p source_p parc parv s =
  Ok 0 s [Numeric source_p ERR_CANNOTSENDTOCHAN [Channel.chname ch]].
Proof.
  intros Hpre Hsrc Hmy Hban. past_preconditions Hpre.
  rewrite (bind_load_client _ _ _ _ Hsrc), Hmy, bind_reads, Hban. reply.
Qed.

Lemma m_knock_not_connected s client_p source_p parc parv chptr ch src :
  preconditions s source_p parv chptr ch ->
  clients s !! source_p = Some src ->
  MyClient src = true ->
  PrivateChannel ch || is_banned s chptr source_p = false ->
  Client.localClient src = None ->
  m_knock client_p source_p parc parv s = Fault.
Proof.
  intros Hpre Hsrc Hmy Hban Hlc. past_preconditions Hpre.
  rewrite (bind_load_client _ _ _ _ Hsrc), Hmy, bind_reads, Hban.
  apply (bind_load_last_knock_fault _ _ _ _ Hsrc Hlc).
Qed.

Lemma m_knock_user_limit s client_p source_p parc parv chptr ch src lc :
  preconditions s source_p parv chptr ch ->
  clients s !! source_p = Some src ->
  MyClient src = true ->
  PrivateChannel ch || is_banned s chptr source_p = false ->
  Client.localClient src = Some lc ->
  user_limited s lc ->
  m_knock client_p source_p parc parv s =
  Ok 0 s [Numeric source_p ERR_TOOMANYKNOCK [Channel.chname ch; "user"]].
Proof.
  intros Hpre Hsrc Hmy Hban Hlc Huser. unfold user_limited in Huser.
  past_preconditions Hpre.
  rewrite (bind_load_client _ _ _ _ Hsrc), Hmy, bind_reads, Hban.
  rewrite (bind_load_last_knock _ _ _ _ _ Hsrc Hlc), !bind_reads.
  apply Z.gtb_gt in Huser. rewrite Huser. reply.
Qed.

Lemma m_knock_channel_limit s client_p source_p parc parv chptr ch src lc :
  preconditions s source_p parv chptr ch ->
  clients s !! source_p = Some src ->
  MyClient src = true ->
  PrivateChannel ch || is_banned s chptr source_p = false ->
  Client.localClient src = Some lc ->
  ¬ user_limited s lc ->
  channel_limited s ch ->
  m_knock client_p source_p parc parv s =
  Ok 0 s [Numeric source_p ERR_TOOMANYKNOCK [Channel.chname ch; "channel"]].
Proof.
  intros Hpre Hsrc Hmy Hban Hlc Huser Hchan.
  unfold user_limited in Huser. unfold channel_limited in Hchan.
  past_preconditions Hpre.
  rewrite (bind_load_client _ _ _ _ Hsrc), Hmy, bind_reads, Hban.
  rewrite (bind_load_last_knock _ _ _ _ _ Hsrc Hlc), !bind_reads.
  rewrite <- Z.gtb_gt in Huser. apply not_true_is_false in Huser.
  apply Z.gtb_gt in Hchan. rewrite Huser, Hchan. reply.
Qed.

Lemma m_knock_local s client_p source_p parc parv chptr ch src lc :
  preconditions s source_p parv chptr ch ->
  clients s !! source_p = Some src ->
  MyClient src = true ->
  PrivateChannel ch || is_banned s chptr source_p = false ->
  Client.localClient src = Some lc ->
  ¬ user_limited s lc ->
  ¬ channel_limited s ch ->
  m_knock client_p source_p parc parv s =
  Ok 0 (channel_knocked chptr ch (client_knocked source_p src lc s))
    [Numeric source_p RPL_KNOCKDLVR [Channel.chname ch];
     ChannelLocal CHFL_CHANOP 0 chptr (knock_notice (me s) src ch);
     Server client_p CAP_KNOCK NOCAPS (knock_relay src ch)].
Proof.
  intros Hpre Hsrc Hmy Hban Hlc Huser Hchan.
  unfold user_limited in Huser. unfold channel_limited in Hchan.
  past_preconditions Hpre.
  rewrite (bind_load_client _ _ _ _ Hsrc), Hmy, bind_reads, Hban.
  rewrite (bind_load_last_knock _ _ _ _ _ Hsrc Hlc), !bind_reads.
  rewrite <- Z.gtb_gt in Huser, Hchan.
  apply not_true_is_false in Huser, Hchan. rewrite Huser, Hchan.
  rewrite (bind_store_last_knock _ _ _ _ _ _ Hsrc Hlc).
  unfold sendto_one_numeric. rewrite bind_emit.
  fold (client_knocked source_p src lc s).
  rewrite (knock_deliver_run _ _ _ _ _ ch); [reflexivity | exact Hch].
Qed.
End Scenarios.

(** ** Every run, case by case *)

Section Cases.
Context {ircd : Ircd}.

Lemma channel_closed_dec (ch : Channel.t) :
  channel_closed ch ∨ ¬ channel_closed ch.
Proof.
  pose proof (closed_test_spec ch) as Hspec.
  match type of Hspec with ?t = true ↔ _ => destruct t end.
  - left. apply Hspec. reflexivity.
  - right. intros Hc. apply Hspec in Hc. discriminate.
Qed.

Lemma parameter_present (parv : list string) :
  irc_string.EmptyString (parv !! 1%nat) = false ->
  ∃ name, parv !! 1%nat = Some name ∧ name ≠ "".
Proof.
  destruct (parv !! 1%nat) as [[|c name]|]; cbn; try discriminate.
  intros _. exists (String c name). split; [reflexivity | discriminate].
Qed.

Lemma parameter_missing (parv : list string) :
  irc_string.EmptyString (parv !! 1%nat) = true
  ↔ parv !! 1%nat = None ∨ parv !! 1%nat = Some "".
Proof.
  destruct (parv !! 1%nat) as [[|c name]|]; cbn; split; intros Hp;
    auto; try discriminate; destruct Hp; discriminate.
Qed.

Lemma error_numeric (n : Z) : In n knock_errors -> In n knock_numerics.
Proof. intros Hn. unfold knock_numerics. apply in_or_app. left. exact Hn. Qed.


(** A run faults, refuses with one error numeric and changes nothing, or
    delivers the knock. *)
Lemma m_knock_outcome s client_p source_p parc parv :
  outcome s client_p source_p (m_knock client_p source_p parc parv s).
Proof.
  destruct (irc_string.EmptyString (parv !! 1%nat)) eqn:Hempty.
  { rewrite m_knock_no_parameter by assumption.
    constructor. cbn. tauto. }
  apply parameter_present in Hempty as (name & Hparv & Hname).
  destruct (hash_find_channel s name) as [chptr|] eqn:Hfind.
  2:{ erewrite m_knock_no_channel by eassumption. constructor. cbn. tauto. }
  destruct (channels s !! chptr) as [ch|] eqn:Hch.
  2:{ erewrite m_knock_dangling by eassumption. constructor. }
  destruct (IsMember s source_p chptr) eqn:Hmem.
  { erewrite m_knock_on_channel by eassumption. constructor. cbn. tauto. }
  destruct (channel_closed_dec ch) as [Hclosed|Hopen].
  2:{ erewrite m_knock_channel_open by eassumption. constructor. cbn. tauto. }
  assert (preconditions s source_p parv chptr ch) as Hpre.
  { exists name. auto 10. }
  destruct (clients s !! source_p) as [src|] eqn:Hsrc.
  2:{ erewrite m_knock_no_source by eassumption. constructor. }
  destruct (MyClient src) eqn:Hmy.
  2:{ erewrite m_knock_relayed by eassumption. constructor. }
  destruct (PrivateChannel ch || is_banned s chptr source_p) eqn:Hban.
  { erewrite m_knock_forbidden by eassumption. constructor. cbn. tauto. }
  destruct (Client.localClient src) as [lc|] eqn:Hlc.
  2:{ erewrite m_knock_not_connected by eassumption. constructor. }
  destruct (Z_gt_dec (LocalClient.last_knock lc + knock_delay (ConfigChannel s))
              (CurrentTime s)) as [Huser|Huser].
  { erewrite m_knock_user_limit by eassumption. constructor. cbn. tauto. }
  destruct (Z_gt_dec
              (Channel.last_knock ch + knock_delay_channel (ConfigChannel s))
              (CurrentTime s)) as [Hchan|Hchan].
  { erewrite m_knock_channel_limit by eassumption. constructor. cbn. tauto. }
  erewrite m_knock_local by eassumption. constructor.
Qed.

(** X5: in a state whose pointers hold objects (the sender, whatever the
    hash table returns, the connection of a client of this server) the
    handler follows no NULL or dangling pointer and returns 0. *)
Lemma m_knock_returns s client_p source_p parc parv :
  pointers_valid s source_p ->
  ∃ s' out, m_knock client_p source_p parc parv s = Ok 0 s' out.
Proof.
  intros ([src Hsrc] & Hfound & Hlocal).
  destruct (irc_string.EmptyString (parv !! 1%nat)) eqn:Hempty.
  { rewrite m_knock_no_parameter by assumption. eauto. }
  apply parameter_present in Hempty as (name & Hparv & Hname).
  destruct (hash_find_channel s name) as [chptr|] eqn:Hfind.
  2:{ erewrite m_knock_no_channel by eassumption. eauto. }
  destruct (Hfound _ _ Hfind) as [ch Hch].
  destruct (IsMember s source_p chptr) eqn:Hmem.
  { erewrite m_knock_on_channel by eassumption. eauto. }
  destruct (channel_closed_dec ch) as [Hclosed|Hopen].
  2:{ erewrite m_knock_channel_open by eassumption. eauto. }
  assert (preconditions s source_p parv chptr ch) as Hpre.
  { exists name. auto 10. }
  destruct (MyClient src) eqn:Hmy.
  2:{ erewrite m_knock_relayed by eassumption. eauto. }
  destruct (PrivateChannel ch || is_banned s chptr source_p) eqn:Hban.
  { erewrite m_knock_forbidden by eassumption. eauto. }
  destruct (Hlocal _ Hsrc Hmy) as [lc Hlc].
  destruct (Z_gt_dec (LocalClient.last_knock lc + knock_delay (ConfigChannel s))
              (CurrentTime s)) as [Huser|Huser].
  { erewrite m_knock_user_limit by eassumption. eauto. }
  destruct (Z_gt_dec
              (Channel.last_knock ch + knock_delay_channel (ConfigChannel s))
              (CurrentTime s)) as [Hchan|Hchan].
  { erewrite m_knock_channel_limit by eassumption. eauto. }
  erewrite m_knock_local by eassumption. eauto.
Qed.

Lemma string_app_assoc (a b c : string) : (a +:+ b) +:+ c = a +:+ b +:+ c.
Proof.
  induction a as [|x a IH]; [reflexivity |].
  change (String x ((a +:+ b) +:+ c) = String x (a +:+ b +:+ c)).
  rewrite IH. reflexivity.
Qed.

(** The notice to the operators carries the nick, the user name and the
    host of the sender. *)
Lemma knock_notice_names_sender (me_ src : Client.t) (ch : Channel.t) :
  ∃ pre post,
    knock_notice me_ src ch =
    pre +:+ Client.name src +:+ " [" +:+ Client.username src +:+ "@"
      +:+ Client.host src +:+ post.
Proof.
  exists (":" +:+ Client.name me_ +:+ " NOTICE @" +:+ Channel.chname ch +:+
          " :KNOCK: " +:+ Channel.chname ch +:+ " (").
  exists "] has asked for an invite)".
  unfold knock_notice. rewrite !string_app_assoc. reflexivity.
Qed.
End Cases.

Section Replies.
Context {ircd : Ircd}.

(** Once the four preconditions hold, the only numerics a run can send are
    those of the later checks and the acknowledgement. *)
Lemma m_knock_later_replies s client_p source_p parc parv chptr ch :
  preconditions s source_p parv chptr ch ->
  ∀ to n args,
    In (Numeric to n args) (events (m_knock client_p source_p parc parv s)) ->
    In n [ERR_CANNOTSENDTOCHAN; ERR_TOOMANYKNOCK; RPL_KNOCKDLVR].
Proof.
  intros Hpre to n args.
  destruct (clients s !! source_p) as [src|] eqn:Hsrc.
  2:{ erewrite m_knock_no_source by eassumption. intros []. }
  destruct (MyClient src) eqn:Hmy.
  2:{ erewrite m_knock_relayed by eassumption. cbn.
      intros [|[|[]]]; discriminate. }
  destruct (PrivateChannel ch || is_banned s chptr source_p) eqn:Hban.
  { erewrite m_knock_forbidden by eassumption. cbn.
    intros [[= _ <- _]|[]]. auto. }
  destruct (Client.localClient src) as [lc|] eqn:Hlc.
  2:{ erewrite m_knock_not_connected by eassumption. intros []. }
  destruct (Z_gt_dec (LocalClient.last_knock lc + knock_delay (ConfigChannel s))
              (CurrentTime s)) as [Huser|Huser].
  { erewrite m_knock_user_limit by eassumption. cbn.
    intros [[= _ <- _]|[]]. auto. }
  destruct (Z_gt_dec
              (Channel.last_knock ch + knock_delay_channel (ConfigChannel s))
              (CurrentTime s)) as [Hchan|Hchan].
  { erewrite m_knock_channel_limit by eassumption. cbn.
    intros [[= _ <- _]|[]]. auto. }
  erewrite m_knock_local by eassumption. cbn.
  intros [[= _ <- _]|[|[|[]]]]; try discriminate. auto.
Qed.

Lemma chanopen_is_no_later_numeric :
  List.NoDup knock_numerics ->
  ¬ In ERR_CHANOPEN [ERR_CANNOTSENDTOCHAN; ERR_TOOMANYKNOCK; RPL_KNOCKDLVR].
Proof.
  unfold knock_numerics, knock_errors. cbn [app]. intros Hnd.
  do 3 (apply NoDup_cons_iff in Hnd as [_ Hnd]).
  apply NoDup_cons_iff in Hnd as [Hnotin _]. exact Hnotin.
Qed.
End Replies.

(** ** The claims of the specification *)

(** Discharges a hypothesis on the example network by evaluation. *)
Ltac evaluated :=
  first
    [ reflexivity
    | discriminate
    | vm_compute; reflexivity
    | vm_compute; discriminate
    | vm_compute; intros [?|[?|[? ?]]]; congruence
    | vm_compute; intros ?; discriminate
    | vm_compute; repeat constructor; intros [?|?]; congruence ].

(** Shows the four preconditions for a channel of the example network. *)
Ltac preconditions_at channel :=
  exists channel;
  split; [reflexivity |];
  split; [discriminate |];
  split; [reflexivity |];
  split; [reflexivity |];
  split; [reflexivity | apply closed_test_spec; reflexivity].

(** C1: the handler checks, in this order, that the channel parameter is
    there, that it names a channel, that the sender is not on the channel
    and that the channel is closed; the first check that fails ends the
    run: its numeric (ERR_NEEDMOREPARAMS, ERR_NOSUCHCHANNEL,
    ERR_KNOCKONCHAN, ERR_CHANOPEN) is the only thing sent, to the sender,
    and the state is as before. *)
Theorem knock_preconditions_in_order {ircd : Ircd} s client_p source_p parc
    parv n args :
  first_failure s source_p parv n args ->
  m_knock client_p source_p parc parv s = Ok 0 s [Numeric source_p n args].
Proof.
  intros Hfail. destruct Hfail.
  - apply m_knock_no_parameter; assumption.
  - eapply m_knock_no_channel; eassumption.
  - eapply m_knock_on_channel; eassumption.
  - eapply m_knock_channel_open; eassumption.
Qed.

Lemma knock_preconditions_in_order_witness :
  Example.run 1 ["KNOCK"] = Ok 0 Example.world [Numeric 1 461 ["KNOCK"]]
  ∧ Example.run 1 ["KNOCK"; "#nowhere"]
    = Ok 0 Example.world [Numeric 1 403 ["#nowhere"]]
  ∧ Example.run 3 ["KNOCK"; "#secret"]
    = Ok 0 Example.world [Numeric 3 714 ["#secret"]]
  ∧ Example.run 1 ["KNOCK"; "#open"]
    = Ok 0 Example.world [Numeric 1 713 ["#open"]].
Proof.
  unfold Example.run. split; [| split; [| split]].
  - apply (knock_preconditions_in_order (ircd := Example.hybrid)).
    apply (no_parameter (ircd := Example.hybrid)). reflexivity.
  - apply (knock_preconditions_in_order (ircd := Example.hybrid)).
    apply (no_channel (ircd := Example.hybrid)); evaluated.
  - apply (knock_preconditions_in_order (ircd := Example.hybrid)).
    apply (on_channel (ircd := Example.hybrid) _ _ _ "#secret" 10%N
             Example.secret); evaluated.
  - apply (knock_preconditions_in_order (ircd := Example.hybrid)).
    apply (channel_open (ircd := Example.hybrid) _ _ _ "#open" 11%N
             Example.open); evaluated.
Defined.

(** C2: a client of this server that passed the earlier checks meets two
    flood limits, each with its own stamp and delay.  While its own last
    knock plus [knock_delay] is ahead of the clock the reply is
    ERR_TOOMANYKNOCK with "user"; otherwise, while the channel's last knock
    plus [knock_delay_channel] is ahead of the clock, ERR_TOOMANYKNOCK with
    "channel"; otherwise both stamps are set to the clock and the sender
    gets RPL_KNOCKDLVR: after the run the [last_knock] of the sender's
    connection and the [last_knock] of the channel both read
    [CurrentTime]. *)
Theorem knock_rate_limits {ircd : Ircd} s client_p source_p parc parv chptr
    ch src lc :
  preconditions s source_p parv chptr ch ->
  clients s !! source_p = Some src ->
  MyClient src = true ->
  Client.localClient src = Some lc ->
  PrivateChannel ch = false ->
  is_banned s chptr source_p = false ->
  (user_limited s lc ->
     m_knock client_p source_p parc parv s =
     Ok 0 s [Numeric source_p ERR_TOOMANYKNOCK [Channel.chname ch; "user"]])
  ∧ (¬ user_limited s lc -> channel_limited s ch ->
     m_knock client_p source_p parc parv s =
     Ok 0 s [Numeric source_p ERR_TOOMANYKNOCK [Channel.chname ch; "channel"]])
  ∧ (¬ user_limited s lc -> ¬ channel_limited s ch ->
     ∃ s' rest src' lc' ch',
       m_knock client_p source_p parc parv s =
       Ok 0 s' (Numeric source_p RPL_KNOCKDLVR [Channel.chname ch] :: rest)
       ∧ clients s' =
         <[source_p := Client.set_localClient
             (Some (LocalClient.set_last_knock (CurrentTime s) lc)) src]>
           (clients s)
       ∧ channels s' =
         <[chptr := Channel.set_last_knock (CurrentTime s) ch]> (channels s)
       ∧ clients s' !! source_p = Some src'
       ∧ Client.localClient src' = Some lc'
       ∧ LocalClient.last_knock lc' = CurrentTime s
       ∧ channels s' !! chptr = Some ch'
       ∧ Channel.last_knock ch' = CurrentTime s).
Proof.
  intros Hpre Hsrc Hmy Hlc Hpriv Hban.
  assert (PrivateChannel ch || is_banned s chptr source_p = false) as Hmay.
  { rewrite Hpriv, Hban. reflexivity. }
  split; [| split].
  - intros Huser. eapply m_knock_user_limit; eassumption.
  - intros Huser Hchan. eapply m_knock_channel_limit; eassumption.
  - intros Huser Hchan. eexists _, _, _, _, _.
    split; [eapply m_knock_local; eassumption |].
    split; [reflexivity |]. split; [reflexivity |].
    split; [cbn; apply lookup_insert_eq |].
    split; [reflexivity |]. split; [reflexivity |].
    split; [cbn; apply lookup_insert_eq | reflexivity].
Qed.

Lemma knock_rate_limits_witness :
  Example.run 4 ["KNOCK"; "#secret"]
  = Ok 0 Example.world [Numeric 4 712 ["#secret"; "user"]]
  ∧ Example.run 1 ["KNOCK"; "#busy"]
    = Ok 0 Example.world [Numeric 1 712 ["#busy"; "channel"]]
  ∧ ∃ s' rest src' lc' ch',
      Example.run 1 ["KNOCK"; "#secret"]
      = Ok 0 s' (Numeric 1 711 ["#secret"] :: rest)
      ∧ clients s' =
        <[1%N := Client.set_localClient (Some (LocalClient.mk 1000))
                   Example.alice]> (clients Example.world)
      ∧ channels s' =
        <[10%N := Channel.set_last_knock 1000 Example.secret]>
          (channels Example.world)
      ∧ clients s' !! 1%N = Some src'
      ∧ Client.localClient src' = Some lc'
      ∧ LocalClient.last_knock lc' = 1000
      ∧ channels s' !! 10%N = Some ch'
      ∧ Channel.last_knock ch' = 1000.
Proof.
  unfold Example.run. split; [| split].
  - refine (proj1 (knock_rate_limits (ircd := Example.hybrid) Example.world
             4%N 4%N 2 ["KNOCK"; "#secret"] 10%N Example.secret Example.dave
             (LocalClient.mk 900) _ _ _ _ _ _) _);
      [preconditions_at "#secret" | evaluated ..].
  - refine (proj1 (proj2 (knock_rate_limits (ircd := Example.hybrid)
             Example.world 1%N 1%N 2 ["KNOCK"; "#busy"] 12%N Example.busy
             Example.alice (LocalClient.mk 0) _ _ _ _ _ _)) _ _);
      [preconditions_at "#busy" | evaluated ..].
  - refine (proj2 (proj2 (knock_rate_limits (ircd := Example.hybrid)
             Example.world 1%N 1%N 2 ["KNOCK"; "#secret"] 10%N Example.secret
             Example.alice (LocalClient.mk 0) _ _ _ _ _ _)) _ _);
      [preconditions_at "#secret" | evaluated ..].
Defined.



(** C4: a knock that passes every check, from a client of this server or
    relayed for a client of another one, sets the channel's last-knock
    stamp to the clock (after the run the channel's [last_knock] reads
    [CurrentTime]), sends the operators of the channel a NOTICE that
    names the sender by nick, user name and host, and hands the KNOCK to
    [sendto_server] for the servers with CAP_KNOCK.  Both texts are
    written out. *)
Theorem knock_success_delivers {ircd : Ircd} s client_p source_p parc parv
    chptr ch src :
  accepted s source_p parv chptr ch src ->
  ∃ s' out ch',
    m_knock client_p source_p parc parv s = Ok 0 s' out
    ∧ channels s' =
      <[chptr := Channel.set_last_knock (CurrentTime s) ch]> (channels s)
    ∧ channels s' !! chptr = Some ch'
    ∧ Channel.last_knock ch' = CurrentTime s
    ∧ In (ChannelLocal CHFL_CHANOP 0 chptr
            (":" +:+ Client.name (me s) +:+ " NOTICE @" +:+ Channel.chname ch
             +:+ " :KNOCK: " +:+ Channel.chname ch +:+ " ("
             +:+ Client.name src +:+ " [" +:+ Client.username src +:+ "@"
             +:+ Client.host src +:+ "] has asked for an invite)")) out
    ∧ In (Server client_p CAP_KNOCK NOCAPS
            (":" +:+ ID src +:+ " KNOCK " +:+ Channel.chname ch)) out.
Proof.
  intros [Hpre Hsrc Hmy | lc Hpre Hsrc Hmy Hpriv Hban Hlc Huser Hchan].
  - eexists _, _, _. split; [eapply m_knock_relayed; eassumption |].
    split; [reflexivity |].
    split; [cbn; apply lookup_insert_eq |].
    split; [reflexivity |].
    split; [left; reflexivity | right; left; reflexivity].
  - assert (PrivateChannel ch || is_banned s chptr source_p = false) as Hmay.
    { rewrite Hpriv, Hban. reflexivity. }
    eexists _, _, _. split; [eapply m_knock_local; eassumption |].
    split; [reflexivity |].
    split; [cbn; apply lookup_insert_eq |].
    split; [reflexivity |].
    split; [right; left; reflexivity | right; right; left; reflexivity].
Qed.

Lemma knock_success_delivers_witness :
  ∃ s' out ch',
    Example.run 2 ["KNOCK"; "#secret"] = Ok 0 s' out
    ∧ channels s' =
      <[10%N := Channel.set_last_knock 1000 Example.secret]>
        (channels Example.world)
    ∧ channels s' !! 10%N = Some ch'
    ∧ Channel.last_knock ch' = 1000
    ∧ In (ChannelLocal 1 0 10
            (":irc.example.net NOTICE @#secret :KNOCK: #secret " +:+
             "(bob [bo@b.example.org] has asked for an invite)")) out
    ∧ In (Server 2 4096 0 ":1BBAAAAAB KNOCK #secret") out.
Proof.
  apply (knock_success_delivers (ircd := Example.hybrid) Example.world 2%N
           2%N 2 ["KNOCK"; "#secret"] 10%N Example.secret Example.bob).
  apply accepted_relayed; [preconditions_at "#secret" | evaluated ..].
Defined.

(** C5: with the parameter there, the channel found and the sender not on
    it, the knock escapes ERR_CHANOPEN exactly when the channel is closed:
    its mode has the invite-only bit, or its key is not the empty string,
    or its limit is not zero and it has at least that many members.  The
    numerics of numeric.h are taken to differ from one another. *)
Theorem knock_closed_iff {ircd : Ircd} s client_p source_p parc parv name
    chptr ch :
  parv !! 1%nat = Some name -> name ≠ "" ->
  hash_find_channel s name = Some chptr ->
  channels s !! chptr = Some ch ->
  IsMember s source_p chptr = false ->
  List.NoDup knock_numerics ->
  channel_closed ch
  ↔ ∀ to args,
      ¬ In (Numeric to ERR_CHANOPEN args)
          (events (m_knock client_p source_p parc parv s)).
Proof.
  intros Hparv Hname Hfind Hch Hmem Hdistinct. split.
  - intros Hclosed to args Hsent.
    apply (chanopen_is_no_later_numeric Hdistinct).
    eapply (m_knock_later_replies s client_p source_p parc parv chptr ch);
      [| exact Hsent].
    exists name. auto 10.
  - intros Hnone. destruct (channel_closed_dec ch) as [Hclosed|Hopen];
      [assumption |].
    exfalso. apply (Hnone source_p [Channel.chname ch]).
    erewrite m_knock_channel_open by eassumption. left. reflexivity.
Qed.

Lemma knock_closed_iff_witness :
  channel_closed (ircd := Example.hybrid) Example.full
  ↔ ∀ to args,
      ¬ In (Numeric to 713 args) (events (Example.run 1 ["KNOCK"; "#full"])).
Proof.
  apply (knock_closed_iff (ircd := Example.hybrid) Example.world 1%N 1%N 2
           ["KNOCK"; "#full"] "#full" 15%N Example.full); try evaluated.
  vm_compute. repeat constructor; intros Hin;
    repeat (destruct Hin as [Hin|Hin]; [discriminate |]); destruct Hin.
Defined.



(** C7: whatever the run, every numeric it sends goes to the sender and is
    one of ERR_NEEDMOREPARAMS, ERR_NOSUCHCHANNEL, ERR_KNOCKONCHAN,
    ERR_CHANOPEN, ERR_CANNOTSENDTOCHAN, ERR_TOOMANYKNOCK and
    RPL_KNOCKDLVR. *)
Theorem knock_replies {ircd : Ircd} s client_p source_p parc parv :
  Forall (expected_reply source_p)
    (events (m_knock client_p source_p parc parv s)).
Proof.
  pose proof (m_knock_outcome s client_p source_p parc parv) as Hout.
  destruct Hout as [| n args Hn | chptr ch src lc | chptr ch src]; cbn.
  - constructor.
  - constructor; [| constructor].
    split; [reflexivity | apply error_numeric, Hn].
  - constructor; [| repeat (constructor; [exact I |]); constructor].
    split; [reflexivity |]. unfold knock_numerics. apply in_or_app.
    right. left. reflexivity.
  - repeat (constructor; [exact I |]). constructor.
Qed.

(** C8: a knock relayed for a client of another server that passed the
    four preconditions always goes through.  Nothing that follows depends
    on the channel being private, on a ban or on either stamp: the channel's
    last-knock stamp is set to the clock (after the run its [last_knock]
    reads [CurrentTime], whatever it read before), the notice and the
    message to the servers are all that is sent, so there is no
    RPL_KNOCKDLVR, and no client is changed. *)
Theorem knock_relayed_always_succeeds {ircd : Ircd} s client_p source_p parc
    parv chptr ch src :
  preconditions s source_p parv chptr ch ->
  clients s !! source_p = Some src ->
  MyClient src = false ->
  ∃ s' ch',
    m_knock client_p source_p parc parv s =
    Ok 0 s'
      [ChannelLocal CHFL_CHANOP 0 chptr (knock_notice (me s) src ch);
       Server client_p CAP_KNOCK NOCAPS (knock_relay src ch)]
    ∧ channels s' =
      <[chptr := Channel.set_last_knock (CurrentTime s) ch]> (channels s)
    ∧ clients s' = clients s
    ∧ channels s' !! chptr = Some ch'
    ∧ Channel.last_knock ch' = CurrentTime s.
Proof.
  intros Hpre Hsrc Hmy. eexists _, _.
  split; [eapply m_knock_relayed; eassumption |].
  split; [reflexivity |]. split; [reflexivity |].
  split; [cbn; apply lookup_insert_eq | reflexivity].
Qed.

Lemma knock_relayed_always_succeeds_witness :
  (PrivateChannel (Ircd := Example.hybrid) Example.hidden = true
   ∧ ∃ s' ch',
       Example.run 2 ["KNOCK"; "#hidden"] =
       Ok 0 s'
         [ChannelLocal 1 0 13
            (knock_notice Example.server Example.bob Example.hidden);
          Server 2 4096 0
            (knock_relay (ircd := Example.hybrid) Example.bob Example.hidden)]
       ∧ channels s' =
         <[13%N := Channel.set_last_knock 1000 Example.hidden]>
           (channels Example.world)
       ∧ clients s' = clients Example.world
       ∧ channels s' !! 13%N = Some ch'
       ∧ Channel.last_knock ch' = 1000)
  ∧ (channel_limited Example.world Example.busy
     ∧ Channel.last_knock Example.busy = 990
     ∧ ∃ s' ch',
         Example.run 2 ["KNOCK"; "#busy"] =
         Ok 0 s'
           [ChannelLocal 1 0 12
              (knock_notice Example.server Example.bob Example.busy);
            Server 2 4096 0
              (knock_relay (ircd := Example.hybrid) Example.bob Example.busy)]
         ∧ channels s' =
           <[12%N := Channel.set_last_knock 1000 Example.busy]>
             (channels Example.world)
         ∧ clients s' = clients Example.world
         ∧ channels s' !! 12%N = Some ch'
         ∧ Channel.last_knock ch' = 1000).
Proof.
  split; [split; [reflexivity |] | split; [reflexivity |];
                                   split; [reflexivity |]].
  - apply (knock_relayed_always_succeeds (ircd := Example.hybrid)
             Example.world 2%N 2%N 2 ["KNOCK"; "#hidden"] 13%N Example.hidden
             Example.bob); [preconditions_at "#hidden" | reflexivity ..].
  - apply (knock_relayed_always_succeeds (ircd := Example.hybrid)
             Example.world 2%N 2%N 2 ["KNOCK"; "#busy"] 12%N Example.busy
             Example.bob); [preconditions_at "#busy" | reflexivity ..].
Defined.

(** C10: a channel parameter that is there but empty counts as missing.
    When [parv[1]] is NULL or the empty string the run ends with
    ERR_NEEDMOREPARAMS as the only reply and the state as before, and the
    channel hash table is not consulted: the run is the same with any
    other table in its place. *)
Theorem knock_empty_parameter {ircd : Ircd} s client_p source_p parc parv :
  parv !! 1%nat = None ∨ parv !! 1%nat = Some "" ->
  m_knock client_p source_p parc parv s =
  Ok 0 s [Numeric source_p ERR_NEEDMOREPARAMS ["KNOCK"]]
  ∧ ∀ lookup,
      m_knock (ircd := with_hash_find_channel lookup) client_p source_p parc
        parv s =
      m_knock client_p source_p parc parv s.
Proof.
  intros Hmissing. apply parameter_missing in Hmissing. split.
  - apply m_knock_no_parameter. exact Hmissing.
  - intros lookup. rewrite !m_knock_no_parameter by exact Hmissing.
    reflexivity.
Qed.

Lemma knock_empty_parameter_witness :
  (Example.run 1 ["KNOCK"] = Ok 0 Example.world [Numeric 1 461 ["KNOCK"]]
   ∧ ∀ lookup,
       m_knock (ircd := with_hash_find_channel (ircd := Example.hybrid) lookup)
         1%N 1%N 2 ["KNOCK"] Example.world =
       Example.run 1 ["KNOCK"])
  ∧ (Example.run 1 ["KNOCK"; ""] =
     Ok 0 Example.world [Numeric 1 461 ["KNOCK"]]
     ∧ ∀ lookup,
         m_knock
           (ircd := with_hash_find_channel (ircd := Example.hybrid) lookup)
           1%N 1%N 2 ["KNOCK"; ""] Example.world =
         Example.run 1 ["KNOCK"; ""]).
Proof.
  split.
  - apply (knock_empty_parameter (ircd := Example.hybrid) Example.world 1%N
             1%N 2 ["KNOCK"]). left. reflexivity.
  - apply (knock_empty_parameter (ircd := Example.hybrid) Example.world 1%N
             1%N 2 ["KNOCK"; ""]). right. reflexivity.
Defined.

(** ** Runs in full *)

Section FullRuns.
Context {ircd : Ircd}.

(** A run ends as [knock_run] says. *)
Lemma m_knock_run s client_p source_p parc parv :
  knock_run s client_p source_p parv (m_knock client_p source_p parc parv s).
Proof.
  destruct (irc_string.EmptyString (parv !! 1%nat)) eqn:Hempty.
  { rewrite m_knock_no_parameter by assumption. constructor. assumption. }
  pose proof Hempty as Hpresent.
  apply parameter_present in Hpresent as (name & Hparv & Hname).
  assert (c_str (parv !! 1%nat) = name) as Hstr by (rewrite Hparv; reflexivity).
  destruct (hash_find_channel s name) as [chptr|] eqn:Hfind.
  2:{ erewrite m_knock_no_channel by eassumption. rewrite <- Hstr.
      constructor; [assumption | rewrite Hstr; assumption]. }
  destruct (channels s !! chptr) as [ch|] eqn:Hch.
  2:{ erewrite m_knock_dangling by eassumption. constructor. }
  assert (∀ n tail, In (n, tail) channel_refusals ->
            knock_run s client_p source_p parv
              (Ok 0 s [Numeric source_p n (Channel.chname ch :: tail)]))
    as Hrefused.
  { intros n tail Hin. apply (run_refused s client_p source_p parv chptr ch);
      [rewrite Hstr; assumption | assumption | assumption]. }
  destruct (IsMember s source_p chptr) eqn:Hmem.
  { erewrite m_knock_on_channel by eassumption. apply Hrefused. cbn. tauto. }
  destruct (channel_closed_dec ch) as [Hclosed|Hopen].
  2:{ erewrite m_knock_channel_open by eassumption.
      apply Hrefused. cbn. tauto. }
  assert (preconditions s source_p parv chptr ch) as Hpre.
  { exists name. auto 10. }
  destruct (clients s !! source_p) as [src|] eqn:Hsrc.
  2:{ erewrite m_knock_no_source by eassumption. constructor. }
  destruct (MyClient src) eqn:Hmy.
  2:{ erewrite m_knock_relayed by eassumption.
      apply run_relayed; [rewrite Hstr | ..]; assumption. }
  destruct (PrivateChannel ch || is_banned s chptr source_p) eqn:Hban.
  { erewrite m_knock_forbidden by eassumption. apply Hrefused. cbn. tauto. }
  destruct (Client.localClient src) as [lc|] eqn:Hlc.
  2:{ erewrite m_knock_not_connected by eassumption. constructor. }
  destruct (Z_gt_dec (LocalClient.last_knock lc + knock_delay (ConfigChannel s))
              (CurrentTime s)) as [Huser|Huser].
  { erewrite m_knock_user_limit by eassumption. apply Hrefused. cbn. tauto. }
  destruct (Z_gt_dec
              (Channel.last_knock ch + knock_delay_channel (ConfigChannel s))
              (CurrentTime s)) as [Hchan|Hchan].
  { erewrite m_knock_channel_limit by eassumption.
    apply Hrefused. cbn. tauto. }
  erewrite m_knock_local by eassumption.
  apply run_local; [rewrite Hstr | ..]; assumption.
Qed.

(** A run that returned, read as a run of [knock_run]. *)
Lemma m_knock_returned s client_p source_p parc parv r s' out :
  m_knock client_p source_p parc parv s = Ok r s' out ->
  knock_run s client_p source_p parv (Ok r s' out).
Proof. intros <-. apply m_knock_run. Qed.
End FullRuns.

(** ** What a run leaves alone *)

(** X1: a run that returns writes nothing but the two last-knock stamps.
    The clock, the configuration and [me] are as before; every client is as
    before, except that the sender's connection may have its stamp set to
    the clock; every channel is as before, except that the channel the hash
    table gave for [parv[1]] may have its stamp set to the clock. *)
Theorem knock_changes_only_stamps {ircd : Ircd} s client_p source_p parc parv
    r s' out :
  m_knock client_p source_p parc parv s = Ok r s' out ->
  CurrentTime s' = CurrentTime s
  ∧ ConfigChannel s' = ConfigChannel s
  ∧ me s' = me s
  ∧ (∀ p : client_ptr,
       clients s' !! p = clients s !! p
       ∨ (p = source_p
          ∧ ∃ src lc,
              clients s !! p = Some src
              ∧ Client.localClient src = Some lc
              ∧ clients s' !! p =
                Some (Client.set_localClient
                        (Some (LocalClient.set_last_knock (CurrentTime s) lc))
                        src)))
  ∧ (∀ q : chan_ptr,
       channels s' !! q = channels s !! q
       ∨ (hash_find_channel s (c_str (parv !! 1%nat)) = Some q
          ∧ ∃ ch,
              channels s !! q = Some ch
              ∧ channels s' !! q =
                Some (Channel.set_last_knock (CurrentTime s) ch))).
Proof.
  intros Hrun. apply m_knock_returned in Hrun.
  inversion Hrun as
    [ | Hempty | Hempty Hfind | q ch n tail Hfind Hch Hin
      | q ch src lc Hfind Hch Hsrc Hmy Hlc | q ch src Hfind Hch Hsrc Hmy ];
    subst; try (repeat split; auto; fail).
  - repeat split; try reflexivity.
    + intros p. cbn. destruct (decide (p = source_p)) as [->|Hne].
      * right. split; [reflexivity |]. exists src, lc.
        rewrite lookup_insert_eq. auto.
      * left. rewrite lookup_insert_ne by congruence. reflexivity.
    + intros q'. cbn. destruct (decide (q' = q)) as [->|Hne].
      * right. split; [assumption |]. exists ch.
        rewrite lookup_insert_eq. auto.
      * left. rewrite lookup_insert_ne by congruence. reflexivity.
  - repeat split; try reflexivity.
    + intros p. left. reflexivity.
    + intros q'. cbn. destruct (decide (q' = q)) as [->|Hne].
      * right. split; [assumption |]. exists ch.
        rewrite lookup_insert_eq. auto.
      * left. rewrite lookup_insert_ne by congruence. reflexivity.
Qed.

Lemma knock_changes_only_stamps_witness :
  CurrentTime Later.after_alice = CurrentTime Example.world
  ∧ ConfigChannel Later.after_alice = ConfigChannel Example.world
  ∧ me Later.after_alice = me Example.world
  ∧ (∀ p : client_ptr,
       clients Later.after_alice !! p = clients Example.world !! p
       ∨ (p = 1%N
          ∧ ∃ src lc,
              clients Example.world !! p = Some src
              ∧ Client.localClient src = Some lc
              ∧ clients Later.after_alice !! p =
                Some (Client.set_localClient
                        (Some (LocalClient.set_last_knock
                                 (CurrentTime Example.world) lc)) src)))
  ∧ (∀ q : chan_ptr,
       channels Later.after_alice !! q = channels Example.world !! q
       ∨ (hash_find_channel (Ircd := Example.hybrid) Example.world
            (c_str (["KNOCK"; "#secret"] !! 1%nat)) = Some q
          ∧ ∃ ch,
              channels Example.world !! q = Some ch
              ∧ channels Later.after_alice !! q =
                Some (Channel.set_last_knock (CurrentTime Example.world) ch))).
Proof.
  apply (knock_changes_only_stamps (ircd := Example.hybrid) Example.world
           1%N 1%N 2 ["KNOCK"; "#secret"] 0 Later.after_alice
           [Numeric 1 711 ["#secret"];
            ChannelLocal 1 0 10
              (knock_notice Example.server Example.alice Example.secret);
            Server 1 4096 0
              (knock_relay (ircd := Example.hybrid) Example.alice
                 Example.secret)]).
  vm_compute. reflexivity.
Defined.

(** X2: a run that returns neither creates nor frees a client or a
    channel: both heaps hold objects at the same addresses as before. *)
Theorem knock_keeps_objects {ircd : Ircd} s client_p source_p parc parv r s'
    out :
  m_knock client_p source_p parc parv s = Ok r s' out ->
  dom (clients s') = dom (clients s) ∧ dom (channels s') = dom (channels s).
Proof.
  intros Hrun. apply m_knock_returned in Hrun.
  inversion Hrun as
    [ | Hempty | Hempty Hfind | q ch n tail Hfind Hch Hin
      | q ch src lc Hfind Hch Hsrc Hmy Hlc | q ch src Hfind Hch Hsrc Hmy ];
    subst; try (split; reflexivity); cbn; split;
    try reflexivity; apply dom_insert_lookup_L; eauto.
Qed.

Lemma knock_keeps_objects_witness :
  dom (clients Later.after_bob) = dom (clients Example.world)
  ∧ dom (channels Later.after_bob) = dom (channels Example.world).
Proof.
  apply (knock_keeps_objects (ircd := Example.hybrid) Example.world 2%N 2%N
           2 ["KNOCK"; "#secret"] 0 Later.after_bob
           [ChannelLocal 1 0 10
              (knock_notice Example.server Example.bob Example.secret);
            Server 2 4096 0
              (knock_relay (ircd := Example.hybrid) Example.bob
                 Example.secret)]).
  vm_compute. reflexivity.
Defined.

(** X3: a run that returns gives 0 and sends at most one numeric, to the
    sender and before anything else; the notice to the operators and the
    message to the servers come together, in this order, or not at all;
    and when they do not come the state is as before. *)
Theorem knock_event_shape {ircd : Ircd} s client_p source_p parc parv r s'
    out :
  m_knock client_p source_p parc parv s = Ok r s' out ->
  r = 0
  ∧ ∃ replies deliveries,
      out = (replies ++ deliveries)%list
      ∧ (replies = [] ∨ ∃ n args, replies = [Numeric source_p n args])
      ∧ (deliveries = [] ∧ s' = s
         ∨ ∃ q notice relay,
             deliveries =
             [ChannelLocal CHFL_CHANOP 0 q notice;
              Server client_p CAP_KNOCK NOCAPS relay]).
Proof.
  intros Hrun. apply m_knock_returned in Hrun.
  inversion Hrun as
    [ | Hempty | Hempty Hfind | q ch n tail Hfind Hch Hin
      | q ch src lc Hfind Hch Hsrc Hmy Hlc | q ch src Hfind Hch Hsrc Hmy ];
    subst; (split; [reflexivity |]).
  - eexists [_], []. split; [reflexivity |]. eauto 10.
  - eexists [_], []. split; [reflexivity |]. eauto 10.
  - eexists [_], []. split; [reflexivity |]. eauto 10.
  - eexists [_], [_; _]. split; [reflexivity |]. eauto 10.
  - eexists [], [_; _]. split; [reflexivity |]. eauto 10.
Qed.

Lemma knock_event_shape_witness :
  0 = 0
  ∧ ∃ replies deliveries,
      [Numeric 4 712 ["#secret"; "user"]] = (replies ++ deliveries)%list
      ∧ (replies = [] ∨ ∃ n args, replies = [Numeric 4 n args])
      ∧ (deliveries = [] ∧ Example.world = Example.world
         ∨ ∃ q notice relay,
             deliveries = [ChannelLocal 1 0 q notice; Server 4 4096 0 relay]).
Proof.
  apply (knock_event_shape (ircd := Example.hybrid) Example.world 4%N 4%N 2
           ["KNOCK"; "#secret"] 0 Example.world
           [Numeric 4 712 ["#secret"; "user"]]).
  vm_compute. reflexivity.
Defined.

(** X4: a run keeps the stamps behind the clock: when no last-knock stamp
    of a client or a channel lies ahead of [CurrentTime] before the run,
    none does after it. *)
Theorem knock_keeps_stamps_behind_clock {ircd : Ircd} s client_p source_p
    parc parv r s' out :
  well_stamped s ->
  m_knock client_p source_p parc parv s = Ok r s' out ->
  well_stamped s'.
Proof.
  intros [Hclients Hchannels] Hrun. apply m_knock_returned in Hrun.
  inversion Hrun as
    [ | Hempty | Hempty Hfind | q ch n tail Hfind Hch Hin
      | q ch src lc Hfind Hch Hsrc Hmy Hlc | q ch src Hfind Hch Hsrc Hmy ];
    subst; try (split; assumption); split; cbn.
  - intros p c l Hp Hl. destruct (decide (p = source_p)) as [->|Hne].
    + rewrite lookup_insert_eq in Hp. injection Hp as <-. cbn in Hl.
      injection Hl as <-. cbn. reflexivity.
    + rewrite lookup_insert_ne in Hp by congruence.
      eapply Hclients; eassumption.
  - intros q' ch' Hq. destruct (decide (q' = q)) as [->|Hne].
    + rewrite lookup_insert_eq in Hq. injection Hq as <-. cbn. reflexivity.
    + rewrite lookup_insert_ne in Hq by congruence.
      eapply Hchannels; eassumption.
  - exact Hclients.
  - intros q' ch' Hq. destruct (decide (q' = q)) as [->|Hne].
    + rewrite lookup_insert_eq in Hq. injection Hq as <-. cbn. reflexivity.
    + rewrite lookup_insert_ne in Hq by congruence.
      eapply Hchannels; eassumption.
Qed.

Lemma example_well_stamped : well_stamped Example.world.
Proof.
  split.
  - intros p c l Hp Hl. unfold Example.world in Hp. cbn in Hp.
    repeat (rewrite lookup_insert in Hp; case_decide;
            [injection Hp as <-; cbn in Hl;
             first [discriminate Hl
                   | injection Hl as <-; vm_compute; discriminate]
            |]).
    try rewrite lookup_empty in Hp. discriminate.
  - intros q ch Hq. unfold Example.world in Hq. cbn in Hq.
    repeat (rewrite lookup_insert in Hq; case_decide;
            [injection Hq as <-; vm_compute; discriminate |]).
    try rewrite lookup_empty in Hq. discriminate.
Qed.

Lemma knock_keeps_stamps_behind_clock_witness :
  well_stamped Later.after_alice.
Proof.
  apply (knock_keeps_stamps_behind_clock (ircd := Example.hybrid)
           Example.world 1%N 1%N 2 ["KNOCK"; "#secret"] 0 Later.after_alice
           [Numeric 1 711 ["#secret"];
            ChannelLocal 1 0 10
              (knock_notice Example.server Example.alice Example.secret);
            Server 1 4096 0
              (knock_relay (ircd := Example.hybrid) Example.alice
                 Example.secret)]).
  - exact example_well_stamped.
  - vm_compute. reflexivity.
Defined.

(** The hash table of the example network only gives addresses of
    channels. *)
Lemma example_finds_channels s name p :
  hash_find_channel (Ircd := Example.hybrid) s name = Some p ->
  is_Some (channels s !! p).
Proof.
  cbn. destruct (List.filter _ _) as [|[p' ch] rest] eqn:Hfilter;
    [discriminate |].
  intros [= <-]. exists ch. apply elem_of_map_to_list.
  apply list_elem_of_In.
  assert (In (p', ch)
            (List.filter
               (fun kv : N * Channel.t => Channel.chname (snd kv) =? name)
               (map_to_list (channels s)))) as Hin.
  { rewrite Hfilter. left. reflexivity. }
  apply filter_In in Hin. apply Hin.
Qed.

Lemma m_knock_returns_witness :
  ∃ s' out,
    m_knock (ircd := Example.hybrid) 1%N 1%N 2 ["KNOCK"; "#secret"]
      Example.world = Ok 0 s' out.
Proof.
  apply (m_knock_returns (ircd := Example.hybrid) Example.world 1%N 1%N 2
           ["KNOCK"; "#secret"]).
  split; [| split].
  - exists Example.alice. reflexivity.
  - intros name p. apply example_finds_channels.
  - intros src [= <-] _. exists (LocalClient.mk 0). reflexivity.
Defined.

(** X8: every message of a run is about the request.  A numeric goes to
    the sender and carries "KNOCK", or the name as it was given when the
    hash table has no such channel, or else starts with the name the
    daemon stores for the channel the hash table gave; the notice goes to
    the operators of that channel and the message to the servers leaves
    out the link the command came in on; both are made of that channel
    and of the client at [source_p]. *)
Theorem knock_messages_are_about_the_request {ircd : Ircd} s client_p
    source_p parc parv :
  Forall (about_request s client_p source_p parv)
    (events (m_knock client_p source_p parc parv s)).
Proof.
  pose proof (m_knock_run s client_p source_p parc parv) as Hrun.
  destruct Hrun as
    [ | Hempty | Hempty Hfind | q ch n tail Hfind Hch Hin
      | q ch src lc Hfind Hch Hsrc Hmy Hlc | q ch src Hfind Hch Hsrc Hmy ];
    cbn [events].
  - constructor.
  - constructor; [| constructor]. cbn. auto.
  - constructor; [| constructor]. cbn. auto.
  - constructor; [| constructor]. cbn. split; [reflexivity |].
    right. right. exists q, ch, tail. auto.
  - constructor; [| constructor; [| constructor; [| constructor]]]; cbn.
    + split; [reflexivity |]. right. right. exists q, ch, []. auto.
    + split; [reflexivity |]. split; [reflexivity |]. exists ch, src. auto.
    + do 3 (split; [reflexivity |]). exists q, ch, src. auto.
  - constructor; [| constructor; [| constructor]]; cbn.
    + split; [reflexivity |]. split; [reflexivity |]. exists ch, src. auto.
    + do 3 (split; [reflexivity |]). exists q, ch, src. auto.
Qed.

(** ** One run after another *)

(** What a run that sent the notice for channel [q] wrote: the stamp of
    [q], and the stamp of the sender when it is a client of this server. *)
Lemma knock_delivered {ircd : Ircd} s client_p source_p parc parv r s1 out
    ty nd q text :
  m_knock client_p source_p parc parv s = Ok r s1 out ->
  In (ChannelLocal ty nd q text) out ->
  CurrentTime s1 = CurrentTime s
  ∧ ConfigChannel s1 = ConfigChannel s
  ∧ (∃ ch, channels s !! q = Some ch
           ∧ channels s1 =
             <[q := Channel.set_last_knock (CurrentTime s) ch]> (channels s))
  ∧ (∃ src, clients s !! source_p = Some src
            ∧ (MyClient src = false -> clients s1 = clients s)
            ∧ (MyClient src = true ->
               ∃ lc, Client.localClient src = Some lc
                     ∧ clients s1 =
                       <[source_p := Client.set_localClient
                           (Some (LocalClient.set_last_knock (CurrentTime s)
                                    lc)) src]> (clients s))).
Proof.
  intros Hrun Hsent. apply m_knock_returned in Hrun.
  inversion Hrun as
    [ | Hempty | Hempty Hfind | q' ch n tail Hfind Hch Hin
      | q' ch src lc Hfind Hch Hsrc Hmy Hlc | q' ch src Hfind Hch Hsrc Hmy ];
    subst; cbn in Hsent.
  - destruct Hsent as [|[]]; discriminate.
  - destruct Hsent as [|[]]; discriminate.
  - destruct Hsent as [|[]]; discriminate.
  - destruct Hsent as [|[[= _ _ <- _]|[|[]]]]; try discriminate.
    repeat split; try reflexivity.
    + exists ch. split; [assumption | reflexivity].
    + exists src. split; [assumption |]. split; [congruence |].
      intros _. exists lc. split; [assumption | reflexivity].
  - destruct Hsent as [[= _ _ <- _]|[|[]]]; try discriminate.
    repeat split; try reflexivity.
    + exists ch. split; [assumption | reflexivity].
    + exists src. split; [assumption |]. split; [reflexivity | congruence].
Qed.

(** X6: one knock per user per [knock_delay], on whatever channel.  After
    a knock of a client of this server was delivered with the clock at
    [T], a knock of the same client that gets as far as the flood checks
    while the clock is below [T + knock_delay] is refused with
    ERR_TOOMANYKNOCK "user" and changes nothing. *)
Theorem knock_again_is_user_limited {ircd : Ircd} s client_p source_p parc
    parv r s1 out ty nd q text src t client_p2 parc2 parv2 q2 ch2 src2 :
  m_knock client_p source_p parc parv s = Ok r s1 out ->
  In (ChannelLocal ty nd q text) out ->
  clients s !! source_p = Some src ->
  MyClient src = true ->
  preconditions (set_CurrentTime t s1) source_p parv2 q2 ch2 ->
  clients (set_CurrentTime t s1) !! source_p = Some src2 ->
  MyClient src2 = true ->
  PrivateChannel ch2 = false ->
  is_banned (set_CurrentTime t s1) q2 source_p = false ->
  t < CurrentTime s + knock_delay (ConfigChannel s) ->
  m_knock client_p2 source_p parc2 parv2 (set_CurrentTime t s1) =
  Ok 0 (set_CurrentTime t s1)
    [Numeric source_p ERR_TOOMANYKNOCK [Channel.chname ch2; "user"]].
Proof.
  intros Hrun Hsent Hsrc Hmy Hpre2 Hsrc2 Hmy2 Hpriv2 Hban2 Hearly.
  destruct (knock_delivered _ _ _ _ _ _ _ _ _ _ _ _ Hrun Hsent)
    as (_ & Hconf & _ & src' & Hsrc' & _ & Hlocal).
  rewrite Hsrc in Hsrc'. injection Hsrc' as <-.
  destruct (Hlocal Hmy) as (lc & Hlc & Hclients).
  cbn in Hsrc2. rewrite Hclients, lookup_insert_eq in Hsrc2.
  injection Hsrc2 as <-.
  eapply m_knock_user_limit; try eassumption.
  - cbn. rewrite Hclients, lookup_insert_eq. reflexivity.
  - rewrite Hpriv2, Hban2. reflexivity.
  - reflexivity.
  - unfold user_limited. cbn. rewrite Hconf. apply Z.lt_gt. exact Hearly.
Qed.

(** X7: one knock per channel per [knock_delay_channel], relayed knocks
    included.  After a knock on channel [q] was delivered with the clock
    at [T], for a client of this server or relayed for another one, a
    knock on [q] of a client of this server that is within its own limit
    and gets as far as the flood checks while the clock is below
    [T + knock_delay_channel] is refused with ERR_TOOMANYKNOCK "channel"
    and changes nothing. *)
Theorem knock_after_knock_is_channel_limited {ircd : Ircd} s client_p
    source_p parc parv r s1 out ty nd q text t client_p2 source_p2 parc2
    parv2 ch2 src2 lc2 :
  m_knock client_p source_p parc parv s = Ok r s1 out ->
  In (ChannelLocal ty nd q text) out ->
  preconditions (set_CurrentTime t s1) source_p2 parv2 q ch2 ->
  clients (set_CurrentTime t s1) !! source_p2 = Some src2 ->
  MyClient src2 = true ->
  Client.localClient src2 = Some lc2 ->
  PrivateChannel ch2 = false ->
  is_banned (set_CurrentTime t s1) q source_p2 = false ->
  ¬ user_limited (set_CurrentTime t s1) lc2 ->
  t < CurrentTime s + knock_delay_channel (ConfigChannel s) ->
  m_knock client_p2 source_p2 parc2 parv2 (set_CurrentTime t s1) =
  Ok 0 (set_CurrentTime t s1)
    [Numeric source_p2 ERR_TOOMANYKNOCK [Channel.chname ch2; "channel"]].
Proof.
  intros Hrun Hsent Hpre2 Hsrc2 Hmy2 Hlc2 Hpriv2 Hban2 Huser2 Hearly.
  destruct (knock_delivered _ _ _ _ _ _ _ _ _ _ _ _ Hrun Hsent)
    as (_ & Hconf & (ch & _ & Hchannels) & _).
  assert (Channel.last_knock ch2 = CurrentTime s) as Hstamp.
  { destruct Hpre2 as (_ & _ & _ & _ & Hch2 & _). cbn in Hch2.
    rewrite Hchannels, lookup_insert_eq in Hch2. injection Hch2 as <-.
    reflexivity. }
  eapply m_knock_channel_limit; try eassumption.
  - rewrite Hpriv2, Hban2. reflexivity.
  - unfold channel_limited. cbn. rewrite Hstamp, Hconf.
    apply Z.lt_gt. exact Hearly.
Qed.

(** X9: the limits end when the delays are over.  After a knock of a
    client of this server on channel [q] was delivered with the clock at
    [T], a knock of the same client on [q] that gets as far as the flood
    checks with the clock at [T + knock_delay] or later and at
    [T + knock_delay_channel] or later is delivered: acknowledgement,
    notice and message to the servers, and both stamps at the new
    clock. *)
Theorem knock_limits_expire {ircd : Ircd} s client_p source_p parc parv r s1
    out ty nd q text src t client_p2 parc2 parv2 ch2 src2 :
  m_knock client_p source_p parc parv s = Ok r s1 out ->
  In (ChannelLocal ty nd q text) out ->
  clients s !! source_p = Some src ->
  MyClient src = true ->
  preconditions (set_CurrentTime t s1) source_p parv2 q ch2 ->
  clients (set_CurrentTime t s1) !! source_p = Some src2 ->
  MyClient src2 = true ->
  PrivateChannel ch2 = false ->
  is_banned (set_CurrentTime t s1) q source_p = false ->
  (CurrentTime s + knock_delay (ConfigChannel s) ≤ t)%Z ->
  (CurrentTime s + knock_delay_channel (ConfigChannel s) ≤ t)%Z ->
  ∃ s3,
    m_knock client_p2 source_p parc2 parv2 (set_CurrentTime t s1) =
    Ok 0 s3
      [Numeric source_p RPL_KNOCKDLVR [Channel.chname ch2];
       ChannelLocal CHFL_CHANOP 0 q (knock_notice (me s1) src2 ch2);
       Server client_p2 CAP_KNOCK NOCAPS (knock_relay src2 ch2)]
    ∧ channels s3 !! q = Some (Channel.set_last_knock t ch2)
    ∧ ∃ lc3,
        clients s3 !! source_p =
        Some (Client.set_localClient (Some lc3) src2)
        ∧ LocalClient.last_knock lc3 = t.
Proof.
  intros Hrun Hsent Hsrc Hmy Hpre2 Hsrc2 Hmy2 Hpriv2 Hban2 Hlate Hlate'.
  destruct (knock_delivered _ _ _ _ _ _ _ _ _ _ _ _ Hrun Hsent)
    as (_ & Hconf & (ch & _ & Hchannels) & src' & Hsrc' & _ & Hlocal).
  rewrite Hsrc in Hsrc'. injection Hsrc' as <-.
  destruct (Hlocal Hmy) as (lc & Hlc & Hclients).
  assert (Channel.last_knock ch2 = CurrentTime s) as Hstamp.
  { destruct Hpre2 as (_ & _ & _ & _ & Hch2 & _). cbn in Hch2.
    rewrite Hchannels, lookup_insert_eq in Hch2. injection Hch2 as <-.
    reflexivity. }
  pose proof Hsrc2 as Hsrc2'. cbn in Hsrc2'.
  rewrite Hclients, lookup_insert_eq in Hsrc2'. injection Hsrc2' as Hsrc2'.
  assert (Client.localClient src2
          = Some (LocalClient.set_last_knock (CurrentTime s) lc)) as Hlc2.
  { rewrite <- Hsrc2'. reflexivity. }
  assert (PrivateChannel ch2 || is_banned (set_CurrentTime t s1) q source_p
          = false) as Hmay.
  { rewrite Hpriv2, Hban2. reflexivity. }
  assert (¬ user_limited (set_CurrentTime t s1)
              (LocalClient.set_last_knock (CurrentTime s) lc)) as Huser.
  { unfold user_limited. cbn. rewrite Hconf. intros Hgt.
    apply Z.gt_lt in Hgt. apply (Z.lt_irrefl t).
    eapply Z.lt_le_trans; eassumption. }
  assert (¬ channel_limited (set_CurrentTime t s1) ch2) as Hchan.
  { unfold channel_limited. cbn. rewrite Hstamp, Hconf. intros Hgt.
    apply Z.gt_lt in Hgt. apply (Z.lt_irrefl t).
    eapply Z.lt_le_trans; eassumption. }
  eexists. split; [| split].
  - exact (m_knock_local (set_CurrentTime t s1) client_p2 source_p parc2
             parv2 q ch2 src2 _ Hpre2 Hsrc2 Hmy2 Hmay Hlc2 Huser Hchan).
  - cbn. rewrite lookup_insert_eq. reflexivity.
  - eexists. cbn. rewrite lookup_insert_eq. split; reflexivity.
Qed.

Lemma knock_again_is_user_limited_witness :
  m_knock (ircd := Example.hybrid) 1%N 1%N 2 ["KNOCK"; "#key"]
    (set_CurrentTime 1100 Later.after_alice) =
  Ok 0 (set_CurrentTime 1100 Later.after_alice)
    [Numeric 1 712 ["#key"; "user"]].
Proof.
  apply (knock_again_is_user_limited (ircd := Example.hybrid) Example.world
           1%N 1%N 2 ["KNOCK"; "#secret"] 0 Later.after_alice
           [Numeric 1 711 ["#secret"];
            ChannelLocal 1 0 10
              (knock_notice Example.server Example.alice Example.secret);
            Server 1 4096 0
              (knock_relay (ircd := Example.hybrid) Example.alice
                 Example.secret)]
           1 0 10%N (knock_notice Example.server Example.alice Example.secret)
           Example.alice 1100 1%N 2 ["KNOCK"; "#key"] 14%N Example.keyed
           (Client.set_localClient (Some (LocalClient.mk 1000))
              Example.alice)).
  - vm_compute. reflexivity.
  - right. left. reflexivity.
  - reflexivity.
  - reflexivity.
  - preconditions_at "#key".
  - reflexivity.
  - reflexivity.
  - reflexivity.
  - reflexivity.
  - reflexivity.
Defined.

Lemma knock_after_knock_is_channel_limited_witness :
  m_knock (ircd := Example.hybrid) 1%N 1%N 2 ["KNOCK"; "#secret"]
    (set_CurrentTime 1030 Later.after_bob) =
  Ok 0 (set_CurrentTime 1030 Later.after_bob)
    [Numeric 1 712 ["#secret"; "channel"]].
Proof.
  apply (knock_after_knock_is_channel_limited (ircd := Example.hybrid)
           Example.world 2%N 2%N 2 ["KNOCK"; "#secret"] 0 Later.after_bob
           [ChannelLocal 1 0 10
              (knock_notice Example.server Example.bob Example.secret);
            Server 2 4096 0
              (knock_relay (ircd := Example.hybrid) Example.bob
                 Example.secret)]
           1 0 10%N (knock_notice Example.server Example.bob Example.secret)
           1030 1%N 1%N 2 ["KNOCK"; "#secret"]
           (Channel.set_last_knock 1000 Example.secret) Example.alice
           (LocalClient.mk 0)).
  - vm_compute. reflexivity.
  - left. reflexivity.
  - preconditions_at "#secret".
  - reflexivity.
  - reflexivity.
  - reflexivity.
  - reflexivity.
  - reflexivity.
  - vm_compute. discriminate.
  - reflexivity.
Defined.

Lemma knock_limits_expire_witness :
  ∃ s3,
    m_knock (ircd := Example.hybrid) 1%N 1%N 2 ["KNOCK"; "#secret"]
      (set_CurrentTime 1300 Later.after_alice) =
    Ok 0 s3
      [Numeric 1 711 ["#secret"];
       ChannelLocal 1 0 10
         (knock_notice Example.server
            (Client.set_localClient (Some (LocalClient.mk 1000))
               Example.alice)
            (Channel.set_last_knock 1000 Example.secret));
       Server 1 4096 0
         (knock_relay (ircd := Example.hybrid)
            (Client.set_localClient (Some (LocalClient.mk 1000))
               Example.alice)
            (Channel.set_last_knock 1000 Example.secret))]
    ∧ channels s3 !! 10%N =
      Some (Channel.set_last_knock 1300
              (Channel.set_last_knock 1000 Example.secret))
    ∧ ∃ lc3,
        clients s3 !! 1%N =
        Some (Client.set_localClient (Some lc3)
                (Client.set_localClient (Some (LocalClient.mk 1000))
                   Example.alice))
        ∧ LocalClient.last_knock lc3 = 1300.
Proof.
  apply (knock_limits_expire (ircd := Example.hybrid) Example.world 1%N 1%N
           2 ["KNOCK"; "#secret"] 0 Later.after_alice
           [Numeric 1 711 ["#secret"];
            ChannelLocal 1 0 10
              (knock_notice Example.server Example.alice Example.secret);
            Server 1 4096 0
              (knock_relay (ircd := Example.hybrid) Example.alice
                 Example.secret)]
           1 0 10%N (knock_notice Example.server Example.alice Example.secret)
           Example.alice 1300 1%N 2 ["KNOCK"; "#secret"]
           (Channel.set_last_knock 1000 Example.secret)
           (Client.set_localClient (Some (LocalClient.mk 1000))
              Example.alice)).
  - vm_compute. reflexivity.
  - right. left. reflexivity.
  - reflexivity.
  - reflexivity.
  - preconditions_at "#secret".
  - reflexivity.
  - reflexivity.
  - reflexivity.
  - reflexivity.
  - vm_compute. discriminate.
  - vm_compute. discriminate.
Defined.

(** X10: the operators are notified only of a knock that passed every
    check.  A run that sends the notice for channel [q] had the four
    preconditions for [q] and a sender that is either no client of this
    server or a client of this server that may knock (channel not private,
    no ban) and is within both flood limits. *)
Theorem knock_notifies_only_accepted {ircd : Ircd} s client_p source_p parc
    parv ty nd q text :
  In (ChannelLocal ty nd q text)
    (events (m_knock client_p source_p parc parv s)) ->
  ∃ ch src, accepted s source_p parv q ch src.
Proof.
  destruct (irc_string.EmptyString (parv !! 1%nat)) eqn:Hempty.
  { rewrite m_knock_no_parameter by assumption.
    intros [|[]]; discriminate. }
  apply parameter_present in Hempty as (name & Hparv & Hname).
  destruct (hash_find_channel s name) as [chptr|] eqn:Hfind.
  2:{ erewrite m_knock_no_channel by eassumption.
      intros [|[]]; discriminate. }
  destruct (channels s !! chptr) as [ch|] eqn:Hch.
  2:{ erewrite m_knock_dangling by eassumption. intros []. }
  destruct (IsMember s source_p chptr) eqn:Hmem.
  { erewrite m_knock_on_channel by eassumption.
    intros [|[]]; discriminate. }
  destruct (channel_closed_dec ch) as [Hclosed|Hopen].
  2:{ erewrite m_knock_channel_open by eassumption.
      intros [|[]]; discriminate. }
  assert (preconditions s source_p parv chptr ch) as Hpre.
  { exists name. auto 10. }
  destruct (clients s !! source_p) as [src|] eqn:Hsrc.
  2:{ erewrite m_knock_no_source by eassumption. intros []. }
  destruct (MyClient src) eqn:Hmy.
  2:{ erewrite m_knock_relayed by eassumption.
      intros [[= _ _ <- _]|[|[]]]; try discriminate.
      exists ch, src. apply accepted_relayed; assumption. }
  destruct (PrivateChannel ch || is_banned s chptr source_p) eqn:Hban.
  { erewrite m_knock_forbidden by eassumption.
    intros [|[]]; discriminate. }
  destruct (Client.localClient src) as [lc|] eqn:Hlc.
  2:{ erewrite m_knock_not_connected by eassumption. intros []. }
  destruct (Z_gt_dec (LocalClient.last_knock lc + knock_delay (ConfigChannel s))
              (CurrentTime s)) as [Huser|Huser].
  { erewrite m_knock_user_limit by eassumption.
    intros [|[]]; discriminate. }
  destruct (Z_gt_dec
              (Channel.last_knock ch + knock_delay_channel (ConfigChannel s))
              (CurrentTime s)) as [Hchan|Hchan].
  { erewrite m_knock_channel_limit by eassumption.
    intros [|[]]; discriminate. }
  erewrite m_knock_local by eassumption.
  intros [|[[= _ _ <- _]|[|[]]]]; try discriminate.
  apply orb_false_iff in Hban as [Hpriv Hban].
  exists ch, src. eapply accepted_local; eassumption.
Qed.

Lemma knock_notifies_only_accepted_witness :
  ∃ ch src,
    accepted (ircd := Example.hybrid) Example.world 2%N ["KNOCK"; "#hidden"]
      13%N ch src.
Proof.
  apply (knock_notifies_only_accepted (ircd := Example.hybrid) Example.world
           2%N 2%N 2 ["KNOCK"; "#hidden"] 1 0 13%N
           (knock_notice Example.server Example.bob Example.hidden)).
  vm_compute. left. reflexivity.
Defined.
